(** * clinicaltrials_downloader: the paginated fetcher and its cache

    A shallow embedding of [src/clinicaltrials_downloader/api.py] and of the
    import performed by [src/clinicaltrials_downloader/__init__.py].

    Python values that come out of [Response.json()] and [json.load] are
    the inductive type [json]; a [dict] decoded from JSON is an association
    list in insertion order.  Numbers are integers: the code never computes
    with a number it receives, it only subscripts, iterates and tests
    truthiness, and a non-integral number behaves like an integer there.

    The outside world is passed explicitly: the state of the HTTP provider,
    the log of the exchanges made with it, the files under the pystow
    module directory and the log of the writes made to them.  The provider
    is an arbitrary deterministic machine [serve]; it may answer a request
    with a JSON value or make [requests.get(...).json()] raise.

    [iterate_download_studies] is a generator: calling it only captures the
    arguments, and the body runs between two [yield]s each time the
    consumer asks for the next element.  The generator is a state [Gen]
    with a resumption function [gen_next]; [list(...)] is [drive], which
    resumes it until it returns or raises.  The [while] loop of the source
    need not terminate (a provider may hand out tokens for ever), so
    [drive] takes fuel and says so when it runs out.

    Logging, [time.time] and the tqdm progress bar have no part in what is
    yielded, requested or written, and are left out. *)

From stdpp Require Import gmap strings list fin_maps.
From Stdlib Require Import ZArith Lia.

Set Warnings "-register-all".

Open Scope string_scope.
Open Scope list_scope.
Open Scope Z_scope.

(** ** Python values and exceptions *)

Inductive json : Type :=
| JNull
| JBool (b : bool)
| JNum (n : Z)
| JStr (s : string)
| JArr (items : list json)
| JObj (members : list (string * json)).

Inductive exn : Type :=
| KeyError (key : string)
| TypeError
| AttributeError
| RequestException
| JSONDecodeError
| BadGzipFile
| ImportError (name : string)
| NotImplementedError.

(** A call that returns [inr v] returned [v]; [inl e] raised [e]. *)
Definition result (A : Type) : Type := (exn + A)%type.

(** A computation that may also loop: [Ok], [Raise], or no answer within
    the fuel given. *)
Inductive outcome (A : Type) : Type :=
| Ok (a : A)
| Raise (e : exn)
| OutOfFuel.
Arguments Ok {A} a.
Arguments Raise {A} e.
Arguments OutOfFuel {A}.

(** [d.get(k)] on the members of a dict, as an option. *)
Fixpoint assoc (k : string) (o : list (string * json)) : option json :=
  match o with
  | [] => None
  | (k', v) :: o' => if String.eqb k k' then Some v else assoc k o'
  end.

(** [v[k]] for a string key [k]. *)
Definition py_getitem (v : json) (k : string) : result json :=
  match v with
  | JObj o => match assoc k o with
              | Some x => inr x
              | None => inl (KeyError k)
              end
  | _ => inl TypeError
  end.

(** [v.get(k)]: [None] when the key is missing. *)
Definition py_get (v : json) (k : string) : result json :=
  match v with
  | JObj o => inr (default JNull (assoc k o))
  | _ => inl AttributeError
  end.

(** [bool(v)]. *)
Definition truthy (v : json) : bool :=
  match v with
  | JNull => false
  | JBool b => b
  | JNum n => negb (n =? 0)
  | JStr s => negb (String.eqb s "")
  | JArr items => match items with [] => false | _ => true end
  | JObj o => match o with [] => false | _ => true end
  end.

(** The characters of a string, each a string of length one. *)
Fixpoint characters (s : string) : list json :=
  match s with
  | EmptyString => []
  | String c s' => JStr (String c EmptyString) :: characters s'
  end.

(** [iter(v)] run to the end: the elements of a list, the characters of a
    string, the keys of a dict. *)
Definition py_iter (v : json) : result (list json) :=
  match v with
  | JArr items => inr items
  | JStr s => inr (characters s)
  | JObj o => inr (map (fun kv => JStr (fst kv)) o)
  | _ => inl TypeError
  end.

(** ** Module constants *)

Definition DEFAULT_FIELDS : list string := ["NCTId"; "BriefTitle"].

Definition SLIM_FIELDS : list string :=
  ["NCTId"; "BriefTitle"; "Condition"; "ConditionMeshTerm"; "ConditionMeshId";
   "InterventionName"; "InterventionType"; "InterventionMeshTerm";
   "InterventionMeshId"; "StudyType"; "DesignAllocation"; "OverallStatus";
   "Phase"; "WhyStopped"; "SecondaryIdType"; "SecondaryId"; "StartDate";
   "StartDateType"; "ReferencePMID"].

Definition STUDIES_ENDPOINT_URL : string := "https://clinicaltrials.gov/api/v2/studies".

(** [pystow.module("bio", "clinicaltrials")]: a directory under the pystow
    home; paths are written relative to that home. *)
Definition MODULE : string := "bio/clinicaltrials".
Definition PATH : string := MODULE +:+ "/results.json.gz".
Definition PATH_SAMPLE : string := MODULE +:+ "/results_sample.json".

Definition MAXIMUM_PAGE_SIZE : Z := 1000.
Definition N_SAMPLE_ROWS : nat := 5%nat.

(** ** HTTP requests *)

Record Request : Type := mkRequest {
  url : string;
  params : gmap string json;
  timeout : Z
}.

(** One call of [requests.get(...).json()]: what was asked, what came back. *)
Definition Exchange : Type := (Request * result json)%type.

(** ** Files *)

(** The content of a file, as far as this program can tell files apart:
    [json.dump] output (with its [indent]), the same gzip-compressed, gzip
    of something that is no JSON, or anything else.  [json.load] gives back
    the value [json.dump] wrote. *)
Inductive File : Type :=
| JsonText (indent : option nat) (v : json)
| GzipJsonText (indent : option nat) (v : json)
| GzipOther (raw : string)
| Other (raw : string).

(** [json.load(gzip.open(path, "rt"))] on a file with this content. *)
Definition gzip_json_load (f : File) : result json :=
  match f with
  | GzipJsonText _ v => inr v
  | GzipOther _ => inl JSONDecodeError
  | JsonText _ _ | Other _ => inl BadGzipFile
  end.

Section Program.

(** The provider: a state and a transition per request. *)
Context {Srv : Type}.
Variable serve : Srv -> Request -> result json * Srv.

(** The zenodo collaborator: the type of its client and what
    [from zenodo_client import Client; Client()] evaluates to. *)
Context {Client : Type}.
Variable default_client : result Client.

Record World : Type := mkWorld {
  provider : Srv;
  http_log : list Exchange;
  files : gmap string File;
  write_log : list string
}.

(** [requests.get(url, params=..., timeout=...).json()] *)
Definition requests_get_json (req : Request) (w : World) : result json * World :=
  let '(resp, p') := serve (provider w) req in
  (resp, {| provider := p';
            http_log := http_log w ++ [(req, resp)];
            files := files w;
            write_log := write_log w |}).

(** [json.dump(v, file)] into a file opened for writing at [path]. *)
Definition write_file (path : string) (content : File) (w : World) : World :=
  {| provider := provider w;
     http_log := http_log w;
     files := <[path := content]> (files w);
     write_log := write_log w ++ [path] |}.

(** *** iterate_download_studies *)

(** Lines 135-139: the default and the clamp. *)
Definition effective_page_size (page_size : option Z) : Z :=
  let page_size := match page_size with
                   | None => MAXIMUM_PAGE_SIZE
                   | Some p => p
                   end in
  if page_size >? MAXIMUM_PAGE_SIZE then MAXIMUM_PAGE_SIZE else page_size.

(** Lines 141-145: the dict [parameters]. *)
Definition parameters (page_size : option Z) (fields : option (list string))
  : gmap string json :=
  let parameters : gmap string json :=
    {[ "pageSize" := JNum (effective_page_size page_size) ]} in
  match fields with
  | Some _ => <["fields" := JStr (String.concat "," DEFAULT_FIELDS)]> parameters
  | None => parameters
  end.

Definition first_request (parameters : gmap string json) : Request :=
  mkRequest STUDIES_ENDPOINT_URL (<["countTotal" := JStr "true"]> parameters) 5.

Definition next_request (parameters : gmap string json) (next_token : json) : Request :=
  mkRequest STUDIES_ENDPOINT_URL (<["pageToken" := next_token]> parameters) 5.

(** The generator object.  [GStart]: created, body not entered.
    [GYieldFrom]: suspended inside one of the two [yield from], with the
    locals [parameters] and [res] and the elements still to be yielded.
    [GFinished]: the body returned or raised. *)
Inductive Gen : Type :=
| GStart (page_size : option Z) (fields : option (list string))
| GYieldFrom (parameters : gmap string json) (res : json) (pending : list json)
| GFinished.

Definition iterate_download_studies
    (page_size : option Z) (fields : option (list string)) : Gen :=
  GStart page_size fields.

(** What one resumption does: yield an element, go on inside the body
    after a request, return, or raise. *)
Inductive Step : Type :=
| SYield (x : json) (g : Gen)
| SContinue (g : Gen)
| SReturn
| SRaise (e : exn).

Definition gen_next (g : Gen) (w : World) : Step * World :=
  match g with
  | GStart page_size fields =>
      let parameters := parameters page_size fields in
      let '(resp, w') := requests_get_json (first_request parameters) w in
      match resp with
      | inl e => (SRaise e, w')
      | inr res =>
          match py_getitem res "totalCount" with
          | inl e => (SRaise e, w')
          | inr total =>
              match py_getitem res "studies" with
              | inl e => (SRaise e, w')
              | inr studies =>
                  match py_iter studies with
                  | inl e => (SRaise e, w')
                  | inr items => (SContinue (GYieldFrom parameters res items), w')
                  end
              end
          end
      end
  | GYieldFrom parameters res (x :: pending) =>
      (SYield x (GYieldFrom parameters res pending), w)
  | GYieldFrom parameters res [] =>
      match py_get res "nextPageToken" with
      | inl e => (SRaise e, w)
      | inr next_token =>
          if truthy next_token then
            let '(resp, w') := requests_get_json (next_request parameters next_token) w in
            match resp with
            | inl e => (SRaise e, w')
            | inr res' =>
                match py_getitem res' "studies" with
                | inl e => (SRaise e, w')
                | inr studies =>
                    match py_iter studies with
                    | inl e => (SRaise e, w')
                    | inr items => (SContinue (GYieldFrom parameters res' items), w')
                    end
                end
            end
          else (SReturn, w)
      end
  | GFinished => (SReturn, w)
  end.

(** What [list(...)] makes of a generator that yields [x] and then behaves
    as [r]: [x] is put in front of the list when there is one. *)
Definition consume (x : json) (r : outcome (list json) * World) : outcome (list json) * World :=
  match r with
  | (Ok xs, w) => (Ok (x :: xs), w)
  | other => other
  end.

(** [list(g)]: resume until the generator returns or raises; what was
    collected is lost when it raises. *)
Fixpoint drive (fuel : nat) (g : Gen) (w : World) : outcome (list json) * World :=
  match fuel with
  | O => (OutOfFuel, w)
  | S fuel' =>
      match gen_next g w with
      | (SYield x g', w') => consume x (drive fuel' g' w')
      | (SContinue g', w') => drive fuel' g' w'
      | (SReturn, w') => (Ok [], w')
      | (SRaise e, w') => (Raise e, w')
      end
  end.

(** *** get_studies *)

(** Lines 107-115: download everything, then write the sample and the
    cache, then return the list. *)
Definition refresh (fuel : nat) (w : World) : outcome json * World :=
  match drive fuel (iterate_download_studies (Some MAXIMUM_PAGE_SIZE) None) w with
  | (Ok studies, w1) =>
      let w2 := write_file PATH_SAMPLE
                  (JsonText (Some 2%nat) (JArr (take N_SAMPLE_ROWS studies))) w1 in
      let w3 := write_file PATH (GzipJsonText None (JArr studies)) w2 in
      (Ok (JArr studies), w3)
  | (Raise e, w1) => (Raise e, w1)
  | (OutOfFuel, w1) => (OutOfFuel, w1)
  end.

Definition get_studies (fuel : nat) (force : bool) (w : World) : outcome json * World :=
  match files w !! PATH with
  | Some cached =>
      if negb force then
        match gzip_json_load cached with
        | inr rv => (Ok rv, w)
        | inl e => (Raise e, w)
        end
      else refresh fuel w
  | None => refresh fuel w
  end.

(** *** upload_zenodo *)

Definition upload_zenodo (fuel : nat) (client : option Client) (w : World)
  : outcome unit * World :=
  let client := match client with
                | Some c => inr c
                | None => default_client
                end in
  match client with
  | inl e => (Raise e, w)
  | inr _ =>
      match get_studies fuel true w with
      | (Ok _, w') => (Raise NotImplementedError, w')
      | (Raise e, w') => (Raise e, w')
      | (OutOfFuel, w') => (OutOfFuel, w')
      end
  end.

End Program.

Arguments World : clear implicits.
Arguments mkWorld {Srv} _ _ _ _.

(** ** What a fetch session may look like *)

Section Sessions.

Context {Srv : Type}.
Variable serve : Srv -> Request -> result json * Srv.

(** The exchanges a generator suspended with locals [parameters] and [res]
    can still make: none; or one request carrying the token of [res],
    followed, when it was answered, by the exchanges possible from that
    answer. *)
Inductive Session (parameters : gmap string json) : json -> list Exchange -> Prop :=
| Session_done res :
    Session parameters res []
| Session_raise res next_token e :
    py_get res "nextPageToken" = inr next_token ->
    truthy next_token = true ->
    Session parameters res [(next_request parameters next_token, inl e)]
| Session_page res next_token res' rest :
    py_get res "nextPageToken" = inr next_token ->
    truthy next_token = true ->
    Session parameters res' rest ->
    Session parameters res ((next_request parameters next_token, inr res') :: rest).

(** The exchanges a generator in state [g] can still make. *)
Definition GenSession (g : Gen) (session : list Exchange) : Prop :=
  match g with
  | GStart page_size fields =>
      let ps := parameters page_size fields in
      session = [] \/
      (exists e, session = [(first_request ps, inl e)]) \/
      (exists res rest, session = (first_request ps, inr res) :: rest /\
                        Session ps res rest)
  | GYieldFrom ps res _ => Session ps res session
  | GFinished => session = []
  end.

(** A provider that, from state [s] and after the response [res], serves
    the pages [pages] one after the other: each but the last carries a
    continuation token (one Python takes for true), and the request made
    with it is answered by the next page; the last carries none. *)
Inductive Continues (ps : gmap string json) : Srv -> json -> list (list json) -> Prop :=
| Continues_end s res next_token :
    py_get res "nextPageToken" = inr next_token ->
    truthy next_token = false ->
    Continues ps s res []
| Continues_next s res next_token res' s' page pages :
    py_get res "nextPageToken" = inr next_token ->
    truthy next_token = true ->
    serve s (next_request ps next_token) = (inr res', s') ->
    py_getitem res' "studies" = inr (JArr page) ->
    Continues ps s' res' pages ->
    Continues ps s res (page :: pages).

(** A provider that, from state [s], serves exactly the pages [pages] to a
    fetcher whose requests carry [ps]: the first response has a total
    count and the first page. *)
Definition Paginated (ps : gmap string json) (s : Srv) (pages : list (list json)) : Prop :=
  match pages with
  | [] => False
  | page :: pages' =>
      exists res s' total,
        serve s (first_request ps) = (inr res, s') /\
        py_getitem res "totalCount" = inr total /\
        py_getitem res "studies" = inr (JArr page) /\
        Continues ps s' res pages'
  end.

(** ** What a resumption does, case by case *)

Inductive NextSpec (w : World Srv) : Gen -> Step -> World Srv -> Prop :=
| Next_first_raise page_size fields e s' :
    let ps := parameters page_size fields in
    serve (provider w) (first_request ps) = (inl e, s') ->
    NextSpec w (GStart page_size fields) (SRaise e)
      (mkWorld s' (http_log w ++ [(first_request ps, inl e)]) (files w) (write_log w))
| Next_first_bad page_size fields res e s' :
    let ps := parameters page_size fields in
    serve (provider w) (first_request ps) = (inr res, s') ->
    (py_getitem res "totalCount" = inl e \/
     (exists total, py_getitem res "totalCount" = inr total) /\
     (py_getitem res "studies" = inl e \/
      exists studies, py_getitem res "studies" = inr studies /\ py_iter studies = inl e)) ->
    NextSpec w (GStart page_size fields) (SRaise e)
      (mkWorld s' (http_log w ++ [(first_request ps, inr res)]) (files w) (write_log w))
| Next_first_page page_size fields res total studies items s' :
    let ps := parameters page_size fields in
    serve (provider w) (first_request ps) = (inr res, s') ->
    py_getitem res "totalCount" = inr total ->
    py_getitem res "studies" = inr studies ->
    py_iter studies = inr items ->
    NextSpec w (GStart page_size fields) (SContinue (GYieldFrom ps res items))
      (mkWorld s' (http_log w ++ [(first_request ps, inr res)]) (files w) (write_log w))
| Next_yield ps res x pending :
    NextSpec w (GYieldFrom ps res (x :: pending)) (SYield x (GYieldFrom ps res pending)) w
| Next_no_get ps res e :
    py_get res "nextPageToken" = inl e ->
    NextSpec w (GYieldFrom ps res []) (SRaise e) w
| Next_return ps res next_token :
    py_get res "nextPageToken" = inr next_token ->
    truthy next_token = false ->
    NextSpec w (GYieldFrom ps res []) SReturn w
| Next_raise ps res next_token e s' :
    py_get res "nextPageToken" = inr next_token ->
    truthy next_token = true ->
    serve (provider w) (next_request ps next_token) = (inl e, s') ->
    NextSpec w (GYieldFrom ps res []) (SRaise e)
      (mkWorld s' (http_log w ++ [(next_request ps next_token, inl e)]) (files w) (write_log w))
| Next_bad ps res next_token res' e s' :
    py_get res "nextPageToken" = inr next_token ->
    truthy next_token = true ->
    serve (provider w) (next_request ps next_token) = (inr res', s') ->
    (py_getitem res' "studies" = inl e \/
     exists studies, py_getitem res' "studies" = inr studies /\ py_iter studies = inl e) ->
    NextSpec w (GYieldFrom ps res []) (SRaise e)
      (mkWorld s' (http_log w ++ [(next_request ps next_token, inr res')]) (files w) (write_log w))
| Next_page ps res next_token res' studies items s' :
    py_get res "nextPageToken" = inr next_token ->
    truthy next_token = true ->
    serve (provider w) (next_request ps next_token) = (inr res', s') ->
    py_getitem res' "studies" = inr studies ->
    py_iter studies = inr items ->
    NextSpec w (GYieldFrom ps res []) (SContinue (GYieldFrom ps res' items))
      (mkWorld s' (http_log w ++ [(next_request ps next_token, inr res')]) (files w) (write_log w))
| Next_finished :
    NextSpec w GFinished SReturn w.

End Sessions.

(** The continuation token a response carries, if it is a dict with the
    key. *)
Definition next_page_token (resp : result json) : option json :=
  match resp with
  | inr (JObj o) => assoc "nextPageToken" o
  | _ => None
  end.


(** What the generator does with a response besides yielding from it: the
    exception it raises, if any.  The first response is subscripted with
    "totalCount" and then "studies" (lines 153-154), a later one with
    "studies" only (line 175); the value found is then iterated. *)
Definition studies_error (res : json) : option exn :=
  match py_getitem res "studies" with
  | inl e => Some e
  | inr studies =>
      match py_iter studies with
      | inl e => Some e
      | inr _ => None
      end
  end.

Definition raised_by (first : bool) (resp : result json) : option exn :=
  match resp with
  | inl e => Some e
  | inr res =>
      if first then
        match py_getitem res "totalCount" with
        | inl e => Some e
        | inr _ => studies_error res
        end
      else studies_error res
  end.

(** The expected key a response dict lacks, in the order the generator
    asks for them. *)
Definition lacks (k : string) (o : list (string * json)) : bool :=
  match assoc k o with
  | None => true
  | Some _ => false
  end.

Definition missing_key (first : bool) (o : list (string * json)) : option string :=
  if first && lacks "totalCount" o then Some "totalCount"
  else if lacks "studies" o then Some "studies"
  else None.

(** ** A simulated paginated provider *)

Record Page : Type := mkPage {
  page_records : list json;
  page_token : option string
}.

(** The response for a page: the total count is sent when it was asked for,
    the continuation token when the page has one. *)
Definition page_response (total : Z) (req : Request) (pg : Page) : json :=
  JObj ((match params req !! "countTotal" with
         | Some _ => [("totalCount", JNum total)]
         | None => []
         end)
        ++ [("studies", JArr (page_records pg))]
        ++ (match page_token pg with
            | Some t => [("nextPageToken", JStr t)]
            | None => []
            end)).

Definition token_matches (expected : option string) (got : option json) : bool :=
  match expected, got with
  | None, None => true
  | Some t, Some (JStr t') => String.eqb t t'
  | _, _ => false
  end.

(** The state of the simulated provider: the pages not served yet and the
    token it handed out last.  A request with the wrong token, or one made
    when every page is served, fails. *)
Definition SimState : Type := (list Page * option string)%type.

Definition sim_serve (total : Z) (s : SimState) (req : Request) : result json * SimState :=
  match s with
  | (pg :: rest, expected) =>
      if token_matches expected (params req !! "pageToken")
      then (inr (page_response total req pg), (rest, page_token pg))
      else (inl RequestException, s)
  | ([], _) => (inl RequestException, s)
  end.

Definition sim_world (pages : list Page) (files : gmap string File) : World SimState :=
  mkWorld (pages, None) [] files [].

Definition record (nct : string) : json := JObj [("NCTId", JStr nct)].

(** The end-to-end scenario: 12 studies, ten on a first page with token
    "tok1", two on a second page without a token. *)
Definition page1 : Page :=
  mkPage (map record ["N01"; "N02"; "N03"; "N04"; "N05"; "N06"; "N07"; "N08"; "N09"; "N10"])
         (Some "tok1").
Definition page2 : Page := mkPage (map record ["N11"; "N12"]) None.
Definition scenario : World SimState := sim_world [page1; page2] ∅.

(** The failure scenario: the provider fails on the request for page 2. *)
Definition failing_scenario (files : gmap string File) : World SimState :=
  sim_world [page1] files.

(** A cache artifact left by an earlier refresh. *)
Definition old_cache : gmap string File :=
  {[ PATH := GzipJsonText None (JArr [record "N00"]) ]}.

Definition cached_scenario : World SimState := sim_world [page1; page2] old_cache.

(** A provider that plays a script, whatever it is asked. *)
Definition scripted_serve (s : list (result json)) (req : Request)
  : result json * list (result json) :=
  match s with
  | resp :: rest => (resp, rest)
  | [] => (inl RequestException, [])
  end.

(** A provider whose second response has no "studies". *)
Definition malformed_scenario : World (list (result json)) :=
  mkWorld [inr (JObj [("totalCount", JNum 3);
                      ("studies", JArr [record "N01"]);
                      ("nextPageToken", JStr "tok1")]);
           inr (JObj [("nextPageToken", JStr "tok2")])]
          [] ∅ [].

(** The pages of a simulated provider are well formed when each but the
    last has a token, not the empty string, and the last has none. *)
Fixpoint tokens_ok (pages : list Page) : Prop :=
  match pages with
  | [] => False
  | pg :: rest =>
      match rest with
      | [] => page_token pg = None
      | _ :: _ => (exists t, page_token pg = Some t /\ t <> "") /\ tokens_ok rest
      end
  end.

(** ** The package's import of its api module *)

(** The names bound in the api module once its body has run
    ([zenodo_client] is imported under [TYPE_CHECKING] only). *)
Definition api_namespace : list string :=
  ["annotations"; "gzip"; "json"; "logging"; "time"; "Iterable";
   "TYPE_CHECKING"; "Any"; "TypeAlias"; "cast"; "pystow"; "requests"; "tqdm";
   "__all__"; "logger"; "DEFAULT_FIELDS"; "SLIM_FIELDS"; "STUDIES_ENDPOINT_URL";
   "MODULE"; "PATH"; "PATH_SAMPLE"; "MAXIMUM_PAGE_SIZE"; "N_SAMPLE_ROWS";
   "RawStudy"; "get_studies"; "iterate_download_studies"; "upload_zenodo"].

Definition api_all : list string :=
  ["get_studies"; "iterate_download_studies"; "upload_zenodo"].

Definition package_all : list string := ["hello"; "square"].

(** [from module import n1, n2, ...] where [module] is a plain module (no
    submodules to fall back on): the names are looked up in order and the
    first one missing raises. *)
Fixpoint import_from (namespace : list string) (names : list string) : result (list string) :=
  match names with
  | [] => inr []
  | n :: names' =>
      if existsb (String.eqb n) namespace then
        match import_from namespace names' with
        | inr bound => inr (n :: bound)
        | inl e => inl e
        end
      else inl (ImportError n)
  end.

(** Running the body of the package's [__init__.py]: its one import, then
    the assignment of [__all__]. *)
Definition import_package : result (list string) :=
  match import_from api_namespace ["hello"; "square"] with
  | inr bound => inr (bound ++ ["__all__"])
  | inl e => inl e
  end.

(** ** Partial consumers, frames and further providers *)

Section Consumers.

Context {Srv : Type}.
Variable serve : Srv -> Request -> result json * Srv.

(** [list(itertools.islice(g, n))]: the consumer asks for at most [n]
    elements and leaves the generator alone once it has them. *)
Fixpoint pull (fuel n : nat) (g : Gen) (w : World Srv) : outcome (list json) * World Srv :=
  match n with
  | O => (Ok [], w)
  | S n' =>
      match fuel with
      | O => (OutOfFuel, w)
      | S fuel' =>
          match gen_next serve g w with
          | (SYield x g', w') => consume x (pull fuel' n' g' w')
          | (SContinue g', w') => pull fuel' n g' w'
          | (SReturn, w') => (Ok [], w')
          | (SRaise e, w') => (Raise e, w')
          end
      end
  end.

(** The same provider and exchanges, with other files and another log of
    writes. *)
Definition with_files (f : gmap string File) (l : list string) (w : World Srv) : World Srv :=
  mkWorld (provider w) (http_log w) f l.

(** A set of provider states that is never left, and from which every
    request is answered by a page with a total count, studies that can be
    iterated and a continuation token Python takes for true. *)
Definition Endless (Inv : Srv -> Prop) : Prop :=
  forall s req,
    Inv s ->
    exists res s' total studies items next_token,
      serve s req = (inr res, s') /\
      py_getitem res "totalCount" = inr total /\
      py_getitem res "studies" = inr studies /\
      py_iter studies = inr items /\
      py_get res "nextPageToken" = inr next_token /\
      truthy next_token = true /\
      Inv s'.

End Consumers.

(** The records the generator yields from a response: the elements of its
    "studies", when it has them. *)
Definition records_of (resp : result json) : list json :=
  match resp with
  | inl _ => []
  | inr res =>
      match py_getitem res "studies" with
      | inl _ => []
      | inr studies =>
          match py_iter studies with
          | inl _ => []
          | inr items => items
          end
      end
  end.

Definition is_object (v : json) : bool :=
  match v with
  | JObj _ => true
  | _ => false
  end.

(** The query parameters the generator ever uses. *)
Definition known_parameters : list string :=
  ["pageSize"; "fields"; "countTotal"; "pageToken"].


(** A provider that always has one more, empty, page. *)
Definition endless_serve (s : unit) (req : Request) : result json * unit :=
  (inr (JObj [("totalCount", JNum 0); ("studies", JArr []); ("nextPageToken", JStr "more")]),
   tt).

Definition endless_scenario : World unit := mkWorld tt [] ∅ [].

(** A provider whose first response is a JSON array, and one whose
    "studies" is a number. *)
Definition array_scenario : World (list (result json)) :=
  mkWorld [inr (JArr [record "N01"])] [] ∅ [].

Definition number_scenario : World (list (result json)) :=
  mkWorld [inr (JObj [("totalCount", JNum 1); ("studies", JNum 7)])] [] ∅ [].

(** A provider of two pages, of one record and of two, whose first response
    carries the empty string for a continuation token. *)
Definition empty_token_pages : list Page :=
  [mkPage [record "N01"] (Some ""); page2].

Definition empty_token_scenario : World SimState := sim_world empty_token_pages ∅.

(** A cache artifact that is no gzip file. *)
Definition corrupt_cache : gmap string File := {[ PATH := Other "not a gzip file" ]}.

Definition corrupt_scenario : World SimState := sim_world [page1; page2] corrupt_cache.

(** * Properties *)

Section Facts.

Context {Srv : Type}.
Variable serve : Srv -> Request -> result json * Srv.
Context {Client : Type}.
Variable default_client : result Client.

#[local] Abbreviation World := (World Srv).
#[local] Abbreviation drive := (drive serve).
#[local] Abbreviation gen_next := (gen_next serve).
#[local] Abbreviation get_studies := (get_studies serve).
#[local] Abbreviation refresh := (refresh serve).
#[local] Abbreviation upload_zenodo := (upload_zenodo serve default_client).
#[local] Abbreviation NextSpec := (NextSpec serve).

(** ** One resumption *)

Lemma consume_world x (r : outcome (list json) * World) : snd (consume x r) = snd r.
Proof. destruct r as [[xs|e|] w]; reflexivity. Qed.

Lemma drive_S fuel g (w : World) :
  drive (S fuel) g w =
  match gen_next g w with
  | (SYield x g', w') => consume x (drive fuel g' w')
  | (SContinue g', w') => drive fuel g' w'
  | (SReturn, w') => (Ok [], w')
  | (SRaise e, w') => (Raise e, w')
  end.
Proof. reflexivity. Qed.

Lemma gen_next_spec g (w : World) :
  NextSpec w g (fst (gen_next g w)) (snd (gen_next g w)).
Proof.
  destruct g as [page_size fields|ps res [|x pending]|]; simpl.
  - unfold requests_get_json.
    destruct (serve (provider w) _) as [[e|res] s'] eqn:Hs; simpl.
    + by apply Next_first_raise.
    + destruct (py_getitem res "totalCount") as [e|total] eqn:Ht; simpl.
      { eapply Next_first_bad; eauto. }
      destruct (py_getitem res "studies") as [e|studies] eqn:Hst; simpl.
      { eapply Next_first_bad; eauto. }
      destruct (py_iter studies) as [e|items] eqn:Hi; simpl.
      { eapply Next_first_bad; eauto 10. }
      eapply Next_first_page; eauto.
  - destruct (py_get res "nextPageToken") as [e|next_token] eqn:Hg; simpl.
    { by apply Next_no_get. }
    destruct (truthy next_token) eqn:Htr; simpl.
    2: { eapply Next_return; eauto. }
    unfold requests_get_json.
    destruct (serve (provider w) _) as [[e|res'] s'] eqn:Hs; simpl.
    { eapply Next_raise; eauto. }
    destruct (py_getitem res' "studies") as [e|studies] eqn:Hst; simpl.
    { eapply Next_bad; eauto. }
    destruct (py_iter studies) as [e|items] eqn:Hi; simpl.
    { eapply Next_bad; eauto. }
    eapply Next_page; eauto.
  - apply Next_yield.
  - apply Next_finished.
Qed.

(** Case analysis on the resumption that [drive] makes first. *)
Ltac step_cases g w :=
  let H := fresh "Hnext" in
  pose proof (gen_next_spec g w) as H;
  rewrite drive_S;
  destruct (gen_next g w) as [? ?];
  simpl in H; inversion H; subst; clear H.

(** ** The exchanges of a run *)

(** Whatever the fuel, [list(...)] on a generator only adds exchanges to
    the log, of the shape its state allows, and touches no file. *)
Lemma drive_session fuel : forall g (w : World),
  exists session,
    http_log (snd (drive fuel g w)) = http_log w ++ session /\
    files (snd (drive fuel g w)) = files w /\
    write_log (snd (drive fuel g w)) = write_log w /\
    GenSession g session.
Proof.
  induction fuel as [|fuel IH]; intros g w.
  { exists []. simpl. rewrite app_nil_r. repeat split; try done.
    destruct g; simpl; auto using Session_done. }
  step_cases g w; simpl.
  - eexists; repeat split; eauto 10.
  - eexists; repeat split; eauto 10 using Session_done.
  - destruct (IH (GYieldFrom ps res items)
                (mkWorld s' (http_log w ++ [(first_request ps, inr res)])
                         (files w) (write_log w)))
      as (session & Hlog & Hf & Hw & Hs).
    exists ((first_request ps, inr res) :: session).
    simpl in *. rewrite Hlog, <- app_assoc. repeat split; eauto 10.
  - rewrite consume_world.
    destruct (IH (GYieldFrom ps res pending) w0) as (session & Hlog & Hf & Hw & Hs).
    exists session. simpl in *. repeat split; eauto.
  - exists []. rewrite app_nil_r. repeat split; eauto using Session_done.
  - exists []. rewrite app_nil_r. repeat split; eauto using Session_done.
  - eexists; repeat split; eauto using Session_raise.
  - eexists; repeat split; eauto using Session_page, Session_done.
  - destruct (IH (GYieldFrom ps res' items)
                (mkWorld s' (http_log w ++ [(next_request ps next_token, inr res')])
                         (files w) (write_log w)))
      as (session & Hlog & Hf & Hw & Hs).
    exists ((next_request ps next_token, inr res') :: session).
    simpl in *. rewrite Hlog, <- app_assoc. repeat split; eauto using Session_page.
  - exists []. rewrite app_nil_r. repeat split; eauto.
Qed.

(** ** The dict [parameters] *)

Lemma parameters_pageSize page_size fields :
  parameters page_size fields !! "pageSize" = Some (JNum (effective_page_size page_size)).
Proof. unfold parameters. destruct fields; by simplify_map_eq. Qed.

Lemma parameters_fields page_size fields :
  parameters page_size fields !! "fields" =
  match fields with
  | Some _ => Some (JStr (String.concat "," DEFAULT_FIELDS))
  | None => None
  end.
Proof. unfold parameters. destruct fields; by simplify_map_eq. Qed.


Lemma parameters_pageToken page_size fields :
  parameters page_size fields !! "pageToken" = None.
Proof. unfold parameters. destruct fields; by simplify_map_eq. Qed.

Lemma effective_page_size_clamped P :
  P > MAXIMUM_PAGE_SIZE -> effective_page_size (Some P) = MAXIMUM_PAGE_SIZE.
Proof.
  intros HP. unfold effective_page_size.
  destruct (P >? MAXIMUM_PAGE_SIZE) eqn:E; [reflexivity | lia].
Qed.

Lemma effective_page_size_le page_size :
  effective_page_size page_size <= MAXIMUM_PAGE_SIZE.
Proof.
  unfold effective_page_size.
  destruct page_size as [p|]; [destruct (p >? MAXIMUM_PAGE_SIZE) eqn:E|]; simpl; lia.
Qed.

(** The first request carries what [parameters] holds under a key other
    than the one the generator adds. *)
Lemma first_request_other ps k :
  k <> "countTotal" -> params (first_request ps) !! k = ps !! k.
Proof. intros Hk. simpl. by rewrite lookup_insert_ne. Qed.

Lemma Session_params ps res session k :
  k <> "pageToken" ->
  Session ps res session ->
  Forall (fun e : Exchange => params (fst e) !! k = ps !! k) session.
Proof.
  intros Hk. induction 1; repeat constructor; simpl;
    solve [by rewrite lookup_insert_ne | done].
Qed.

Lemma GenSession_start_params page_size fields session k :
  k <> "pageToken" -> k <> "countTotal" ->
  GenSession (iterate_download_studies page_size fields) session ->
  Forall (fun e : Exchange => params (fst e) !! k = parameters page_size fields !! k)
         session.
Proof.
  intros Hk Hk' [->|[[e ->]|(res & rest & -> & Hs)]].
  - constructor.
  - repeat constructor. by apply first_request_other.
  - constructor; [by apply first_request_other|].
    by apply Session_params with res.
Qed.



(** ** Query parameters of every request *)

(** The first resumption issues the first request. *)
Lemma first_resumption_requests page_size fields fuel (w : World) session :
  http_log (snd (drive (S fuel) (iterate_download_studies page_size fields) w))
    = http_log w ++ session ->
  session <> [].
Proof.
  intros Hlog ->. rewrite app_nil_r in Hlog.
  apply (f_equal length) in Hlog. revert Hlog.
  unfold iterate_download_studies.
  step_cases (GStart page_size fields) w; simpl.
  - rewrite length_app. simpl. lia.
  - rewrite length_app. simpl. lia.
  - match goal with |- context [drive fuel ?g ?w1] =>
      destruct (drive_session fuel g w1) as (session' & -> & _)
    end.
    simpl. rewrite !length_app. simpl. lia.
Qed.

(** C4. For every page size [P] above the provider maximum of 1000, every
    request of the fetch carries [pageSize] 1000, whatever the provider
    answers and however long the fetch runs; the oversized value is not
    rejected: the effective page size is 1000 and the first resumption
    issues the first request. *)
Theorem oversized_page_size_is_clamped P fields fuel (w : World) :
  P > MAXIMUM_PAGE_SIZE ->
  effective_page_size (Some P) = 1000 /\
  exists session,
    http_log (snd (drive fuel (iterate_download_studies (Some P) fields) w))
      = http_log w ++ session /\
    Forall (fun e : Exchange => params (fst e) !! "pageSize" = Some (JNum 1000)) session /\
    ((0 < fuel)%nat -> session <> []).
Proof.
  intros HP. split; [by apply effective_page_size_clamped|].
  destruct (drive_session fuel (iterate_download_studies (Some P) fields) w)
    as (session & Hlog & _ & _ & Hs).
  exists session. split; [exact Hlog|]. split.
  - eapply Forall_impl.
    + apply GenSession_start_params with (k := "pageSize"); [done|done|exact Hs].
    + intros e He. simpl in He. rewrite He, parameters_pageSize.
      by rewrite effective_page_size_clamped.
  - intros Hfuel. destruct fuel as [|fuel]; [lia|].
    intros Hnil. by apply (first_resumption_requests (Some P) fields fuel w session).
Qed.

(** X2. The [fields] parameter, for any run: when a selection is passed every
    request carries the joined default list, whatever the selection; when
    none is passed no request has the parameter. *)
Lemma fields_parameter page_size fields fuel (w : World) :
  exists session,
    http_log (snd (drive fuel (iterate_download_studies page_size fields) w))
      = http_log w ++ session /\
    Forall (fun e : Exchange =>
              params (fst e) !! "fields" =
              match fields with
              | Some _ => Some (JStr "NCTId,BriefTitle")
              | None => None
              end) session.
Proof.
  destruct (drive_session fuel (iterate_download_studies page_size fields) w)
    as (session & Hlog & _ & _ & Hs).
  exists session. split; [exact Hlog|].
  eapply Forall_impl.
  - apply GenSession_start_params with (k := "fields"); [done|done|exact Hs].
  - intros e He. simpl in He. rewrite He, parameters_fields. by destruct fields.
Qed.


(** ** Fetching from a paginated provider *)

Lemma length_concat_pages (pages : list (list json)) :
  length (concat pages) = sum_list (length <$> pages).
Proof.
  induction pages as [|page pages IH]; simpl; [reflexivity|].
  by rewrite length_app, IH.
Qed.

(** The elements pending in a [yield from] come out first, one per
    resumption. *)
Lemma drive_pending pending : forall ps res fuel (w : World),
  drive (length pending + fuel) (GYieldFrom ps res pending) w =
  match drive fuel (GYieldFrom ps res []) w with
  | (Ok xs, w') => (Ok (pending ++ xs), w')
  | other => other
  end.
Proof.
  induction pending as [|x pending IH]; intros ps res fuel w.
  - simpl. by destruct (drive fuel _ w) as [[xs|e|] w'].
  - change (length (x :: pending) + fuel)%nat with (S (length pending + fuel)).
    rewrite drive_S. simpl. rewrite IH.
    by destruct (drive fuel _ w) as [[xs|e|] w'].
Qed.

(** Once a page is drained, the pages that the provider still serves are
    fetched and yielded in order, with one request each; the run returns
    at the response that carries no token. *)
Lemma drive_continues ps s res pages :
  Continues serve ps s res pages ->
  forall fuel (w : World) e0,
    provider w = s ->
    snd e0 = inr res ->
    (length (concat pages) + length pages < fuel)%nat ->
    exists w' session,
      drive fuel (GYieldFrom ps res []) w = (Ok (concat pages), w') /\
      http_log w' = http_log w ++ session /\
      length session = length pages /\
      exists req res_last next_token,
        last (e0 :: session) = Some (req, inr res_last) /\
        py_get res_last "nextPageToken" = inr next_token /\
        truthy next_token = false.
Proof.
  induction 1 as [s res tok Hg Ht|s res tok res' s' page pages Hg Ht Hserve Hst Hc IH];
    intros fuel w e0 Hw He0 Hfuel.
  - destruct fuel as [|fuel]; [simpl in Hfuel; lia|].
    rewrite drive_S. simpl. rewrite Hg, Ht.
    exists w, []. rewrite app_nil_r. repeat split; try done.
    destruct e0 as [req0 resp0]. simpl in He0. subst resp0.
    exists req0, res, tok. done.
  - simpl in Hfuel. rewrite length_app in Hfuel.
    destruct fuel as [|fuel]; [lia|].
    rewrite drive_S. simpl. rewrite Hg, Ht.
    unfold requests_get_json. rewrite Hw, Hserve, Hst. simpl.
    set (w1 := mkWorld s' _ _ _).
    replace fuel with (length page + (fuel - length page))%nat by lia.
    rewrite drive_pending.
    destruct (IH (fuel - length page)%nat w1 (next_request ps tok, inr res'))
      as (w' & session & Hd & Hlog & Hlen & Hlast); [done|done|lia|].
    rewrite Hd.
    exists w', ((next_request ps tok, inr res') :: session).
    repeat split.
    + rewrite Hlog. subst w1. simpl. by rewrite <- app_assoc.
    + simpl. by rewrite Hlen.
    + by rewrite last_cons_cons.
Qed.

(** C1, as amended. For every provider that serves K pages of sizes s1..sK
    to the fetcher, the first response with a total count, the first K-1
    responses carrying a continuation token that Python takes for true (as
    every non-empty string is) and the last carrying none, or one Python
    takes for false, and with fuel for the K requests, the s1+...+sK
    records and the return: [list(iterate_download_studies(...))] returns
    the records of the pages in page order, each page in response order,
    s1+...+sK of them; exactly K requests are made; and the last exchange
    is the one whose response has no token Python takes for true. *)
Theorem fetcher_yields_pages_in_order page_size fields pages fuel (w : World) :
  Paginated serve (parameters page_size fields) (provider w) pages ->
  (length (concat pages) + length pages < fuel)%nat ->
  exists w' session,
    drive fuel (iterate_download_studies page_size fields) w = (Ok (concat pages), w') /\
    length (concat pages) = sum_list (length <$> pages) /\
    http_log w' = http_log w ++ session /\
    length session = length pages /\
    exists req res_last next_token,
      last session = Some (req, inr res_last) /\
      py_get res_last "nextPageToken" = inr next_token /\
      truthy next_token = false.
Proof.
  destruct pages as [|page pages]; [done|].
  intros (res & s' & total & Hserve & Htotal & Hst & Hc) Hfuel.
  simpl in Hfuel. rewrite length_app in Hfuel.
  destruct fuel as [|fuel]; [lia|].
  unfold iterate_download_studies. rewrite drive_S. simpl.
  unfold requests_get_json. rewrite Hserve, Htotal, Hst. simpl.
  set (ps := parameters page_size fields) in *.
  set (w1 := mkWorld s' _ _ _).
  replace fuel with (length page + (fuel - length page))%nat by lia.
  rewrite drive_pending.
  destruct (drive_continues ps s' res pages Hc (fuel - length page)%nat w1
              (first_request ps, inr res))
    as (w' & session & Hd & Hlog & Hlen & Hlast); [done|done|lia|].
  rewrite Hd.
  exists w', ((first_request ps, inr res) :: session).
  repeat split.
  - apply (length_concat_pages (page :: pages)).
  - rewrite Hlog. subst w1. simpl. by rewrite <- app_assoc.
  - simpl. by rewrite Hlen.
  - exact Hlast.
Qed.

(** ** Failures end the fetch *)

Lemma consume_Raise_fst x (r : outcome (list json) * World) e :
  fst r = Raise e -> fst (consume x r) = Raise e.
Proof. destruct r as [[xs|e0|] w]; simpl; congruence. Qed.

Lemma studies_error_page res studies items :
  py_getitem res "studies" = inr studies ->
  py_iter studies = inr items ->
  studies_error res = None.
Proof. unfold studies_error. by intros -> ->. Qed.

Lemma studies_error_bad res e :
  py_getitem res "studies" = inl e \/
  (exists studies, py_getitem res "studies" = inr studies /\ py_iter studies = inl e) ->
  studies_error res = Some e.
Proof. unfold studies_error. by intros [->|(studies & -> & ->)]. Qed.

(** A log that did not grow recorded the empty session. *)
Ltac session_nil H :=
  match type of H with
  | ?l = ?l ++ ?s =>
      let H' := fresh in
      assert (H' : s = []) by (apply (app_inv_head l); by rewrite app_nil_r);
      clear H; rename H' into H
  end.

(** An exchange that makes the generator raise is the last one of the run,
    and the run raises that exception: inside the loop... *)
Lemma drive_fatal_later fuel : forall ps res pending (w : World) session i req resp e,
  http_log (snd (drive fuel (GYieldFrom ps res pending) w)) = http_log w ++ session ->
  session !! i = Some (req, resp) ->
  raised_by false resp = Some e ->
  fst (drive fuel (GYieldFrom ps res pending) w) = Raise e /\ length session = S i.
Proof.
  induction fuel as [|fuel IH]; intros ps res pending w session i req resp e Hlog Hi He.
  { simpl in Hlog. session_nil Hlog. by subst session. }
  revert Hlog.
  step_cases (GYieldFrom ps res pending) w; simpl; intros Hlog.
  - rewrite consume_world in Hlog.
    destruct (IH _ _ _ _ _ _ _ _ _ Hlog Hi He) as [Hr Hlen].
    split; [by apply consume_Raise_fst|done].
  - session_nil Hlog. by subst session.
  - session_nil Hlog. by subst session.
  - apply app_inv_head in Hlog. subst session.
    destruct i as [|i]; [|done]. injection Hi as <- <-.
    simpl in He. by injection He as <-.
  - apply app_inv_head in Hlog. subst session.
    destruct i as [|i]; [|done]. injection Hi as <- <-.
    simpl in He. rewrite (studies_error_bad res' e0) in He by done.
    by injection He as <-.
  - match type of Hlog with context [drive fuel ?g ?w1] =>
      destruct (drive_session fuel g w1) as (session' & Hlog' & _)
    end.
    pose proof Hlog' as Hlog''.
    rewrite Hlog in Hlog''. simpl in Hlog''. rewrite <- app_assoc in Hlog''.
    apply app_inv_head in Hlog''. subst session.
    destruct i as [|i].
    + injection Hi as <- <-. simpl in He.
      by rewrite (studies_error_page res' studies items) in He.
    + simpl in Hi.
      destruct (IH _ _ _ _ _ _ _ _ _ Hlog' Hi He) as [Hr Hlen].
      split; [done|]. simpl. by rewrite Hlen.
Qed.

(** ... and from the start, where the first response is asked for its
    total count as well. *)
Lemma drive_fatal fuel page_size fields (w : World) session i req resp e :
  http_log (snd (drive fuel (iterate_download_studies page_size fields) w))
    = http_log w ++ session ->
  session !! i = Some (req, resp) ->
  raised_by (bool_decide (i = 0%nat)) resp = Some e ->
  fst (drive fuel (iterate_download_studies page_size fields) w) = Raise e /\
  length session = S i.
Proof.
  intros Hlog Hi He.
  destruct fuel as [|fuel].
  { simpl in Hlog. session_nil Hlog. by subst session. }
  revert Hlog. unfold iterate_download_studies.
  step_cases (GStart page_size fields) w; simpl; intros Hlog.
  - apply app_inv_head in Hlog. subst session.
    destruct i as [|i]; [|done]. injection Hi as <- <-.
    simpl in He. by injection He as <-.
  - apply app_inv_head in Hlog. subst session.
    destruct i as [|i]; [|done]. injection Hi as <- <-.
    simpl in He.
    match goal with H : _ \/ _ |- _ => destruct H as [Ht|[[total Ht] Hst]] end.
    + rewrite Ht in He. by injection He as <-.
    + rewrite Ht, (studies_error_bad res e0) in He by done. by injection He as <-.
  - match type of Hlog with context [drive fuel ?g ?w1] =>
      destruct (drive_session fuel g w1) as (session' & Hlog' & _)
    end.
    pose proof Hlog' as Hlog''.
    rewrite Hlog in Hlog''. simpl in Hlog''. rewrite <- app_assoc in Hlog''.
    apply app_inv_head in Hlog''. subst session.
    destruct i as [|i].
    + injection Hi as <- <-. simpl in He.
      match goal with H : py_getitem res "totalCount" = _ |- _ => rewrite H in He end.
      by rewrite (studies_error_page res studies items) in He.
    + simpl in Hi. change (bool_decide (S i = 0%nat)) with false in He.
      destruct (drive_fatal_later fuel _ _ _ _ _ _ _ _ _ Hlog' Hi He) as [Hr Hlen].
      split; [done|]. simpl. by rewrite Hlen.
Qed.

Lemma missing_key_raised first o k :
  missing_key first o = Some k ->
  raised_by first (inr (JObj o)) = Some (KeyError k).
Proof.
  unfold missing_key, lacks, raised_by, studies_error. simpl.
  destruct first, (assoc "totalCount" o), (assoc "studies" o); simpl;
    intros [= <-]; reflexivity.
Qed.

(** C9. In every run of the fetch: when a response is a JSON object that
    lacks an expected key ("totalCount" or "studies" for the first
    response, "studies" for a later one), the run raises the key-lookup
    error for that key, and the exchange with that response is the last
    one: nothing is requested after it and no list is returned. *)
Theorem missing_key_is_fatal fuel page_size fields (w : World) session i req o k :
  http_log (snd (drive fuel (iterate_download_studies page_size fields) w))
    = http_log w ++ session ->
  session !! i = Some (req, inr (JObj o)) ->
  missing_key (bool_decide (i = 0%nat)) o = Some k ->
  fst (drive fuel (iterate_download_studies page_size fields) w) = Raise (KeyError k) /\
  length session = S i.
Proof.
  intros Hlog Hi Hk.
  eapply drive_fatal; eauto using missing_key_raised.
Qed.

(** ** The cache *)

Lemma PATH_SAMPLE_neq_PATH : PATH_SAMPLE <> PATH.
Proof. apply String.eqb_neq. reflexivity. Qed.

Lemma get_studies_refresh fuel force (w : World) :
  force = true \/ files w !! PATH = None ->
  get_studies fuel force w = refresh fuel w.
Proof.
  unfold get_studies.
  intros [->| ->]; [|reflexivity].
  by destruct (files w !! PATH).
Qed.

(** A refresh is one run of the fetcher at the maximum page size, followed,
    when it returned a list, by the two writes. *)
Lemma refresh_cases fuel (w : World) :
  let run := drive fuel (iterate_download_studies (Some MAXIMUM_PAGE_SIZE) None) w in
  (exists studies,
      fst run = Ok studies /\
      refresh fuel w =
        (Ok (JArr studies),
         write_file PATH (GzipJsonText None (JArr studies))
           (write_file PATH_SAMPLE
              (JsonText (Some 2%nat) (JArr (take N_SAMPLE_ROWS studies))) (snd run)))) \/
  ((forall studies, fst run <> Ok studies) /\
   fst (refresh fuel w) = match fst run with
                          | Ok studies => Ok (JArr studies)
                          | Raise e => Raise e
                          | OutOfFuel => OutOfFuel
                          end /\
   snd (refresh fuel w) = snd run).
Proof.
  unfold refresh.
  destruct (drive fuel _ w) as [[studies|e|] w1]; simpl; [left|right|right]; eauto.
Qed.

Lemma refresh_http_log fuel (w : World) :
  http_log (snd (refresh fuel w)) =
  http_log (snd (drive fuel (iterate_download_studies (Some MAXIMUM_PAGE_SIZE) None) w)).
Proof.
  destruct (refresh_cases fuel w) as [(studies & _ & ->)|(_ & _ & ->)]; reflexivity.
Qed.

(** A refresh that does not return writes nothing. *)
Lemma refresh_writes_after_collection fuel (w : World) :
  (forall rv, fst (refresh fuel w) <> Ok rv) ->
  files (snd (refresh fuel w)) = files w /\
  write_log (snd (refresh fuel w)) = write_log w.
Proof.
  intros Hno.
  destruct (refresh_cases fuel w) as [(studies & _ & Hr)|(_ & _ & Hw)].
  - rewrite Hr in Hno. by destruct (Hno (JArr studies)).
  - rewrite Hw.
    destruct (drive_session fuel (iterate_download_studies (Some MAXIMUM_PAGE_SIZE) None) w)
      as (session & _ & Hf & Hwl & _).
    done.
Qed.

(** C2. When the cache artifact exists and [force] is false, [get_studies]
    returns what decompressing and parsing the artifact gives and leaves
    the world as it was: no exchange is logged and no file is written.
    Hence a second call with [force] false returns the same list as the
    first and leaves the files and the write log as the first call left
    them, whether the first call was served from the cache or filled it. *)
Theorem cached_studies_are_reread fuel fuel' (w : World) :
  (forall cached rv,
      files w !! PATH = Some cached ->
      gzip_json_load cached = inr rv ->
      get_studies fuel false w = (Ok rv, w)) /\
  (forall rv w1,
      get_studies fuel false w = (Ok rv, w1) ->
      get_studies fuel' false w1 = (Ok rv, w1)).
Proof.
  split.
  - intros cached rv Hc Hload. unfold get_studies.
    rewrite Hc. simpl. by rewrite Hload.
  - intros rv w1. unfold get_studies at 1.
    destruct (files w !! PATH) as [cached|] eqn:Hc; simpl.
    + destruct (gzip_json_load cached) as [e|rv'] eqn:Hload; [done|].
      intros [= <- <-]. unfold get_studies.
      rewrite Hc. simpl. by rewrite Hload.
    + destruct (refresh_cases fuel w) as [(studies & _ & ->)|(Hno & Hfst & _)].
      * intros [= <- <-]. unfold get_studies. simpl.
        by rewrite lookup_insert_eq.
      * intros Hr. rewrite Hr in Hfst. simpl in Hfst.
        destruct (fst (drive fuel _ w)) as [studies| |] eqn:Hd; try done.
        by destruct (Hno studies).
Qed.

(** C3. In every refresh (forced, or with no cache artifact) in which an
    exchange with the provider fails (the request raises, or its response
    makes the fetcher raise), [get_studies] raises that error and the files
    and the log of writes are what they were before the call. *)
Theorem failed_refresh_writes_nothing fuel force (w : World) session i req resp e :
  force = true \/ files w !! PATH = None ->
  http_log (snd (get_studies fuel force w)) = http_log w ++ session ->
  session !! i = Some (req, resp) ->
  raised_by (bool_decide (i = 0%nat)) resp = Some e ->
  fst (get_studies fuel force w) = Raise e /\
  files (snd (get_studies fuel force w)) = files w /\
  write_log (snd (get_studies fuel force w)) = write_log w.
Proof.
  intros Hrefresh. rewrite (get_studies_refresh fuel force w Hrefresh).
  rewrite refresh_http_log. intros Hlog Hi He.
  destruct (drive_fatal fuel _ _ w session i req resp e Hlog Hi He) as [Hr _].
  assert (fst (refresh fuel w) = Raise e) as Hraise.
  { destruct (refresh_cases fuel w) as [(studies & Hok & _)|(_ & -> & _)].
    - simpl in Hok. congruence.
    - by rewrite Hr. }
  split; [exact Hraise|].
  apply refresh_writes_after_collection. intros rv. by rewrite Hraise.
Qed.

(** [studies[:N_SAMPLE_ROWS]] *)
Lemma sample_rows (L : list json) :
  take N_SAMPLE_ROWS L = take (Nat.min 5 (length L)) L /\
  take N_SAMPLE_ROWS L `prefix_of` L /\
  ((length L < 5)%nat -> take N_SAMPLE_ROWS L = L) /\
  ((5 <= length L)%nat -> length (take N_SAMPLE_ROWS L) = 5%nat).
Proof.
  unfold N_SAMPLE_ROWS. split; [|split; [apply prefix_take|split]].
  - destruct (Nat.le_ge_cases 5 (length L)).
    + by rewrite Nat.min_l.
    + rewrite Nat.min_r by done. by rewrite !take_ge by lia.
  - intros Hlt. apply take_ge. lia.
  - intros Hge. rewrite length_take. lia.
Qed.

(** C6. After every refresh that returns, with list [L]: the cache artifact
    holds [L], the sample artifact holds the first min(5, |L|) entries of
    [L], which is the whole of [L] when it has fewer than 5 entries and 5
    entries otherwise, and the sample is a prefix of the cached list. *)
Theorem sample_is_prefix_of_cache fuel force (w w' : World) rv :
  force = true \/ files w !! PATH = None ->
  get_studies fuel force w = (Ok rv, w') ->
  exists L sample,
    rv = JArr L /\
    files w' !! PATH = Some (GzipJsonText None (JArr L)) /\
    files w' !! PATH_SAMPLE = Some (JsonText (Some 2%nat) (JArr sample)) /\
    sample = take (Nat.min 5 (length L)) L /\
    sample `prefix_of` L /\
    ((length L < 5)%nat -> sample = L) /\
    ((5 <= length L)%nat -> length sample = 5%nat).
Proof.
  intros Hrefresh. rewrite (get_studies_refresh fuel force w Hrefresh).
  destruct (refresh_cases fuel w) as [(L & _ & ->)|(Hno & Hfst & _)].
  - intros [= <- <-]. exists L, (take N_SAMPLE_ROWS L).
    destruct (sample_rows L) as (Hmin & Hpre & Hall & Hfive).
    split; [done|]. split; [simpl; by rewrite lookup_insert_eq|].
    split; [|done].
    simpl. rewrite lookup_insert_ne by (intros H; by apply PATH_SAMPLE_neq_PATH).
    by rewrite lookup_insert_eq.
  - intros Hr. rewrite Hr in Hfst. simpl in Hfst.
    destruct (fst (drive fuel _ w)) as [studies| |] eqn:Hd; try done.
    by destruct (Hno studies).
Qed.

(** ** upload_zenodo *)

(** C8, as amended. No call of [upload_zenodo] returns.  A call that has
    a client (passed in, or built by default) calls
    [get_studies(force=True)], which downloads whatever the cache holds;
    when that call returns, [upload_zenodo] raises [NotImplementedError]
    with both artifacts rewritten; when it raises, the same error
    propagates. *)
Theorem upload_zenodo_refreshes_then_raises fuel client (w : World) :
  (forall u, fst (upload_zenodo fuel client w) <> Ok u) /\
  (forall c,
      match client with Some c' => inr c' | None => default_client end = inr c ->
      get_studies fuel true w = refresh fuel w /\
      ((0 < fuel)%nat -> http_log (snd (upload_zenodo fuel client w)) <> http_log w) /\
      (forall rv w',
          get_studies fuel true w = (Ok rv, w') ->
          upload_zenodo fuel client w = (Raise NotImplementedError, w')) /\
      (forall e w',
          get_studies fuel true w = (Raise e, w') ->
          upload_zenodo fuel client w = (Raise e, w'))).
Proof.
  unfold upload_zenodo. split.
  - intros u.
    destruct (match client with Some c' => inr c' | None => default_client end);
      [done|].
    by destruct (get_studies fuel true w) as [[rv|e|] w'].
  - intros c ->.
    assert (get_studies fuel true w = refresh fuel w) as Hg
        by (apply get_studies_refresh; by left).
    split; [exact Hg|]. split.
    + intros Hfuel.
      assert (http_log (snd (get_studies fuel true w)) <> http_log w) as Hne.
      { rewrite Hg, refresh_http_log.
        destruct (drive_session fuel (iterate_download_studies (Some MAXIMUM_PAGE_SIZE) None) w)
          as (session & Hlog & _).
        rewrite Hlog. intros Heq.
        destruct fuel as [|fuel]; [lia|].
        apply (first_resumption_requests _ _ _ _ _ Hlog).
        symmetry in Heq. session_nil Heq. done. }
      by destruct (get_studies fuel true w) as [[rv|e|] w'].
    + split; intros ? w' ->; reflexivity.
Qed.

(** ** Importing the package *)

(** C10. Importing the package raises [ImportError]: its [__init__] asks
    the api module for [hello], then [square], and the api module binds
    neither; the names the api module exports are the three functions, all
    bound, and none of them is among the package's declared exports. *)
Theorem package_import_raises :
  import_package = inl (ImportError "hello") /\
  (forall n, In n package_all -> ~ In n api_namespace) /\
  (forall n, In n api_all -> In n api_namespace) /\
  (forall n, In n api_all -> ~ In n package_all) /\
  import_from api_namespace api_all = inr api_all.
Proof.
  split; [reflexivity|]. split; [|split; [|split; [|reflexivity]]].
  - intros n Hn Hin. simpl in Hn.
    destruct Hn as [<-|[<-|[]]]; simpl in Hin;
      repeat (destruct Hin as [Hin|Hin]; [discriminate Hin|]); exact Hin.
  - intros n Hn. simpl in Hn.
    destruct Hn as [<-|[<-|[<-|[]]]]; simpl; tauto.
  - intros n Hn Hin. simpl in Hn, Hin.
    destruct Hn as [<-|[<-|[<-|[]]]];
      repeat (destruct Hin as [Hin|Hin]; [discriminate Hin|]); exact Hin.
Qed.

End Facts.

(** * The scenarios, run *)

(** ** The simulated provider is paginated *)

Lemma page_response_studies total req pg :
  py_getitem (page_response total req pg) "studies" = inr (JArr (page_records pg)).
Proof.
  unfold page_response. simpl.
  by destruct (params req !! "countTotal").
Qed.

Lemma page_response_token total req pg :
  py_get (page_response total req pg) "nextPageToken" =
  inr (match page_token pg with Some t => JStr t | None => JNull end).
Proof.
  unfold page_response. simpl.
  by destruct (params req !! "countTotal"), (page_token pg).
Qed.

Lemma page_response_total total ps pg :
  py_getitem (page_response total (first_request ps) pg) "totalCount" = inr (JNum total).
Proof.
  unfold page_response. simpl. by rewrite lookup_insert_eq.
Qed.

Lemma truthy_JStr t : t <> "" -> truthy (JStr t) = true.
Proof.
  intros Ht. simpl. apply negb_true_iff. by apply String.eqb_neq.
Qed.

Lemma sim_continues total ps pages : forall pg req,
  tokens_ok (pg :: pages) ->
  Continues (sim_serve total) ps (pages, page_token pg) (page_response total req pg)
            (map page_records pages).
Proof.
  induction pages as [|pg' pages IH]; intros pg req Hok.
  - simpl in Hok. eapply Continues_end; [apply page_response_token|].
    by rewrite Hok.
  - destruct Hok as [(t & Ht & Hne) Hok]. simpl.
    eapply Continues_next with (next_token := JStr t).
    + rewrite page_response_token. by rewrite Ht.
    + by apply truthy_JStr.
    + simpl. rewrite Ht. simpl. rewrite lookup_insert_eq. simpl.
      rewrite String.eqb_refl. reflexivity.
    + apply page_response_studies.
    + apply IH. exact Hok.
Qed.

(** Every well-formed simulated provider serves its pages to the fetcher. *)
Lemma sim_paginated total page_size fields pages files :
  tokens_ok pages ->
  Paginated (sim_serve total) (parameters page_size fields)
            (provider (sim_world pages files)) (map page_records pages).
Proof.
  destruct pages as [|pg pages]; [done|]. intros Hok.
  set (ps := parameters page_size fields).
  exists (page_response total (first_request ps) pg), (pages, page_token pg), (JNum total).
  split.
  { simpl. rewrite lookup_insert_ne by done.
    unfold ps. by rewrite parameters_pageToken. }
  split; [apply page_response_total|].
  split; [apply page_response_studies|].
  by apply sim_continues.
Qed.

(** ** The end-to-end scenario *)

Lemma scenario_tokens_ok : tokens_ok [page1; page2].
Proof.
  split; [|reflexivity]. exists "tok1". split; [reflexivity|discriminate].
Defined.

(** Twelve records in page order, two requests, from the provider of the
    end-to-end scenario. *)
Lemma fetcher_yields_pages_in_order_witness :
  exists w' session,
    drive (sim_serve 12) 20 (iterate_download_studies None None) scenario
      = (Ok (concat (map page_records [page1; page2])), w') /\
    length (concat (map page_records [page1; page2]))
      = sum_list (length <$> map page_records [page1; page2]) /\
    http_log w' = http_log scenario ++ session /\
    length session = length (map page_records [page1; page2]) /\
    exists req res_last next_token,
      last session = Some (req, inr res_last) /\
      py_get res_last "nextPageToken" = inr next_token /\
      truthy next_token = false.
Proof.
  apply (fetcher_yields_pages_in_order (sim_serve 12) None None
           (map page_records [page1; page2]) 20 scenario).
  - apply (sim_paginated 12 None None [page1; page2] ∅ scenario_tokens_ok).
  - simpl. lia.
Defined.

Lemma oversized_page_size_is_clamped_witness :
  5000 > MAXIMUM_PAGE_SIZE /\
  effective_page_size (Some 5000) = 1000 /\
  exists session,
    http_log (snd (drive (sim_serve 12) 20
                     (iterate_download_studies (Some 5000) None) scenario))
      = http_log scenario ++ session /\
    Forall (fun e : Exchange => params (fst e) !! "pageSize" = Some (JNum 1000)) session /\
    ((0 < 20)%nat -> session <> []).
Proof.
  split; [reflexivity|].
  apply (oversized_page_size_is_clamped (sim_serve 12) 5000 None 20 scenario).
  reflexivity.
Defined.

(** A cache is there: it is returned, and nothing else happens. *)
Lemma cached_studies_are_reread_witness :
  get_studies (sim_serve 12) 20 false cached_scenario
    = (Ok (JArr [record "N00"]), cached_scenario) /\
  get_studies (sim_serve 12) 7 false cached_scenario
    = (Ok (JArr [record "N00"]), cached_scenario).
Proof.
  destruct (cached_studies_are_reread (sim_serve 12) 20 7 cached_scenario) as [H1 H2].
  assert (get_studies (sim_serve 12) 20 false cached_scenario
          = (Ok (JArr [record "N00"]), cached_scenario)) as H.
  { apply (H1 (GzipJsonText None (JArr [record "N00"]))); reflexivity. }
  split; [exact H|exact (H2 _ _ H)].
Defined.

(** The provider fails on the second request of a forced refresh: the old
    cache stays. *)
Lemma failed_refresh_writes_nothing_witness :
  fst (get_studies (sim_serve 12) 20 true (failing_scenario old_cache))
    = Raise RequestException /\
  files (snd (get_studies (sim_serve 12) 20 true (failing_scenario old_cache)))
    = old_cache /\
  write_log (snd (get_studies (sim_serve 12) 20 true (failing_scenario old_cache))) = [].
Proof.
  set (ps := parameters (Some MAXIMUM_PAGE_SIZE) None).
  apply (failed_refresh_writes_nothing (sim_serve 12) 20 true
           (failing_scenario old_cache)
           [(first_request ps, inr (page_response 12 (first_request ps) page1));
            (next_request ps (JStr "tok1"), inl RequestException)]
           1 (next_request ps (JStr "tok1")) (inl RequestException) RequestException).
  - left. reflexivity.
  - vm_compute. reflexivity.
  - reflexivity.
  - reflexivity.
Defined.

(** The end-to-end scenario with no cache: a cache of 12 records and a
    sample of 5. *)
Lemma sample_is_prefix_of_cache_witness :
  exists L sample,
    JArr (concat (map page_records [page1; page2])) = JArr L /\
    files (snd (get_studies (sim_serve 12) 20 false scenario)) !! PATH
      = Some (GzipJsonText None (JArr L)) /\
    files (snd (get_studies (sim_serve 12) 20 false scenario)) !! PATH_SAMPLE
      = Some (JsonText (Some 2%nat) (JArr sample)) /\
    sample = take (Nat.min 5 (length L)) L /\
    sample `prefix_of` L /\
    ((length L < 5)%nat -> sample = L) /\
    ((5 <= length L)%nat -> length sample = 5%nat).
Proof.
  apply (sample_is_prefix_of_cache (sim_serve 12) 20 false scenario).
  - right. reflexivity.
  - vm_compute. reflexivity.
Defined.

(** The second response has no "studies". *)
Lemma missing_key_is_fatal_witness :
  fst (drive scripted_serve 20 (iterate_download_studies None None) malformed_scenario)
    = Raise (KeyError "studies") /\
  length [(first_request (parameters None None),
           inr (JObj [("totalCount", JNum 3);
                      ("studies", JArr [record "N01"]);
                      ("nextPageToken", JStr "tok1")]) : result json);
          (next_request (parameters None None) (JStr "tok1"),
           inr (JObj [("nextPageToken", JStr "tok2")]))] = 2%nat.
Proof.
  apply (missing_key_is_fatal scripted_serve 20 None None malformed_scenario _ 1
           (next_request (parameters None None) (JStr "tok1"))
           [("nextPageToken", JStr "tok2")] "studies").
  - vm_compute. reflexivity.
  - reflexivity.
  - reflexivity.
Defined.

(** ** The field selection *)

(** C5. A caller selects the one field "Condition"; both requests of the
    end-to-end scenario carry [fields] "NCTId,BriefTitle", the joined
    default list, and not "Condition", the join of the selection. *)
Theorem fields_selection_is_not_sent :
  map (fun e : Exchange => params (fst e) !! "fields")
      (http_log (snd (drive (sim_serve 12) 20
                        (iterate_download_studies None (Some ["Condition"])) scenario)))
    = [Some (JStr "NCTId,BriefTitle"); Some (JStr "NCTId,BriefTitle")] /\
  String.concat "," ["Condition"] = "Condition" /\
  JStr "NCTId,BriefTitle" <> JStr (String.concat "," ["Condition"]).
Proof.
  split; [vm_compute; reflexivity|]. split; [reflexivity|].
  simpl. discriminate.
Qed.

(** ** upload_zenodo *)

(** C8, the claim as stated fails: the provider fails on the second
    request, and [upload_zenodo] raises the provider's error, with any
    amount of fuel; it does not raise [NotImplementedError]. *)
Lemma upload_zenodo_raises_fetch_error :
  fst (upload_zenodo (sim_serve 12) (inr tt) 20 None (failing_scenario ∅))
    = Raise RequestException /\
  forall fuel,
    fst (upload_zenodo (sim_serve 12) (inr tt) fuel None (failing_scenario ∅))
      <> Raise NotImplementedError.
Proof.
  split; [vm_compute; reflexivity|].
  intros fuel.
  do 12 (destruct fuel as [|fuel]; [vm_compute; discriminate|]).
  vm_compute. discriminate.
Qed.

(** Without a client and without the zenodo_client library, nothing is
    downloaded at all. *)
Example upload_zenodo_without_client_library :
  upload_zenodo (Client := unit) (sim_serve 12) (inl (ImportError "zenodo_client"))
                20 None scenario
    = (Raise (ImportError "zenodo_client"), scenario).
Proof. reflexivity. Qed.

Lemma upload_zenodo_refreshes_then_raises_witness :
  upload_zenodo (sim_serve 12) (inr tt) 20 None cached_scenario
    = (Raise NotImplementedError, snd (get_studies (sim_serve 12) 20 true cached_scenario)) /\
  http_log (snd (upload_zenodo (sim_serve 12) (inr tt) 20 None cached_scenario))
    <> http_log cached_scenario.
Proof.
  destruct (upload_zenodo_refreshes_then_raises (sim_serve 12) (inr tt) 20 None
              cached_scenario) as [_ H].
  destruct (H tt eq_refl) as (_ & Hlog & Hok & _).
  split.
  - apply (Hok (JArr (concat (map page_records [page1; page2])))).
    vm_compute. reflexivity.
  - apply Hlog. lia.
Defined.

(** ** A token Python takes for false *)

(** The loop tests the token for truth, not for presence: a response whose
    "nextPageToken" is the empty string ends the fetch like one without
    the key. *)
Example empty_token_ends_the_fetch :
  let w := sim_world [mkPage [record "N01"] (Some ""); page2] ∅ in
  fst (drive (sim_serve 3) 20 (iterate_download_studies None None) w) = Ok [record "N01"] /\
  length (http_log (snd (drive (sim_serve 3) 20 (iterate_download_studies None None) w)))
    = 1%nat.
Proof. split; vm_compute; reflexivity. Qed.

(** C1, the claim as stated fails.  A simulated provider has two pages, of
    one record and of two.  Its first response, and only it, carries a
    "nextPageToken": the empty string; the request made with that token
    would be answered by the second page, which carries none.  The fetch
    makes one request and returns one record, not two requests and three
    records. *)
Lemma empty_token_is_not_followed :
  map (fun e : Exchange => next_page_token (snd e))
      (http_log (snd (drive (sim_serve 3) 20 (iterate_download_studies None None)
                        empty_token_scenario)))
    = [Some (JStr "")] /\
  fst (sim_serve 3
         (provider (snd (drive (sim_serve 3) 20 (iterate_download_studies None None)
                           empty_token_scenario)))
         (next_request (parameters None None) (JStr "")))
    = inr (page_response 3 (next_request (parameters None None) (JStr "")) page2) /\
  next_page_token
    (inr (page_response 3 (next_request (parameters None None) (JStr "")) page2)) = None /\
  fst (drive (sim_serve 3) 20 (iterate_download_studies None None) empty_token_scenario)
    = Ok [record "N01"] /\
  length (http_log (snd (drive (sim_serve 3) 20 (iterate_download_studies None None)
                           empty_token_scenario))) = 1%nat /\
  length (concat (map page_records empty_token_pages)) = 3%nat /\
  length empty_token_pages = 2%nat.
Proof. repeat split; vm_compute; reflexivity. Qed.

(** * More on the fetcher and the cache *)

Section MoreFacts.

Context {Srv : Type}.
Variable serve : Srv -> Request -> result json * Srv.

#[local] Abbreviation World := (World Srv).
#[local] Abbreviation drive := (drive serve).
#[local] Abbreviation pull := (pull serve).
#[local] Abbreviation gen_next := (gen_next serve).
#[local] Abbreviation get_studies := (get_studies serve).
#[local] Abbreviation refresh := (refresh serve).

(** Case analysis on the first resumption of a run. *)
Ltac first_step g w :=
  let H := fresh "Hnext" in
  pose proof (gen_next_spec serve g w) as H;
  rewrite (drive_S serve);
  destruct (gen_next g w) as [? ?];
  simpl in H; inversion H; subst; clear H.

Ltac same_log H :=
  match type of H with
  | ?l = ?l ++ ?s =>
      let H' := fresh in
      assert (H' : s = []) by (apply (app_inv_head l); by rewrite app_nil_r);
      clear H; rename H' into H
  end.

(** ** What every request looks like *)



Lemma parameters_keys page_size fields k :
  is_Some (parameters page_size fields !! k) -> k = "pageSize" \/ k = "fields".
Proof.
  unfold parameters. destruct fields.
  - destruct (decide (k = "fields")) as [->|Hk]; [by right|].
    rewrite lookup_insert_ne by done.
    destruct (decide (k = "pageSize")) as [->|Hk']; [by left|].
    rewrite lookup_singleton_ne by done. by intros [? ?].
  - destruct (decide (k = "pageSize")) as [->|Hk']; [by left|].
    rewrite lookup_singleton_ne by done. by intros [? ?].
Qed.

Lemma Session_shape ps res session :
  Session ps res session ->
  Forall (fun e : Exchange => exists next_token, fst e = next_request ps next_token) session.
Proof. induction 1; repeat constructor; simpl; eauto. Qed.

(** X3. Every request of every fetch goes to the studies endpoint with a
    timeout of 5 seconds and carries no query parameter other than
    [pageSize], [fields], [countTotal] and [pageToken]. *)
Theorem requests_are_uniform page_size fields fuel (w : World) :
  exists session,
    http_log (snd (drive fuel (iterate_download_studies page_size fields) w))
      = http_log w ++ session /\
    Forall (fun e : Exchange =>
              url (fst e) = STUDIES_ENDPOINT_URL /\
              timeout (fst e) = 5 /\
              forall k, is_Some (params (fst e) !! k) -> In k known_parameters)
           session.
Proof.
  destruct (drive_session serve fuel (iterate_download_studies page_size fields) w)
    as (session & Hlog & _ & _ & Hs).
  exists session. split; [exact Hlog|].
  assert (forall k c (v : json),
             In c known_parameters ->
             is_Some (<[c := v]> (parameters page_size fields) !! k) ->
             In k known_parameters) as Hkeys.
  { intros k c v Hc. destruct (decide (k = c)) as [->|Hk]; [done|].
    rewrite lookup_insert_ne by done. intros Hsome.
    destruct (parameters_keys _ _ _ Hsome) as [->| ->]; simpl; tauto. }
  assert (forall e : Exchange,
             (fst e = first_request (parameters page_size fields) \/
              exists t, fst e = next_request (parameters page_size fields) t) ->
             url (fst e) = STUDIES_ENDPOINT_URL /\ timeout (fst e) = 5 /\
             forall k, is_Some (params (fst e) !! k) -> In k known_parameters) as Hreq.
  { intros e [->|[t ->]]; simpl; (split; [done|split; [done|]]);
      intros k; apply Hkeys; simpl; tauto. }
  destruct Hs as [->|[[e ->]|(res & rest & -> & Hs)]].
  - constructor.
  - constructor; [apply Hreq; by left|constructor].
  - constructor; [apply Hreq; by left|].
    eapply Forall_impl; [apply (Session_shape _ _ _ Hs)|].
    intros e He. apply Hreq. by right.
Qed.

(** X12. Every request that [get_studies] makes, in any call, carries
    [pageSize] 1000 and no [fields] parameter: a refresh downloads whole
    records at the maximum page size. *)
Theorem get_studies_fetches_whole_records fuel force (w : World) :
  exists session,
    http_log (snd (get_studies fuel force w)) = http_log w ++ session /\
    Forall (fun e : Exchange =>
              params (fst e) !! "pageSize" = Some (JNum 1000) /\
              params (fst e) !! "fields" = None)
           session.
Proof.
  assert (exists session,
             http_log (snd (refresh fuel w)) = http_log w ++ session /\
             Forall (fun e : Exchange =>
                       params (fst e) !! "pageSize" = Some (JNum 1000) /\
                       params (fst e) !! "fields" = None) session) as Hrefresh.
  { rewrite (refresh_http_log serve).
    destruct (drive_session serve fuel
                (iterate_download_studies (Some MAXIMUM_PAGE_SIZE) None) w)
      as (session & Hlog & _ & _ & Hs).
    exists session. split; [exact Hlog|].
    apply Forall_and; split.
    - eapply Forall_impl.
      + apply GenSession_start_params with (k := "pageSize"); [done|done|exact Hs].
      + intros e He. cbv beta in He. by rewrite He, parameters_pageSize.
    - eapply Forall_impl.
      + apply GenSession_start_params with (k := "fields"); [done|done|exact Hs].
      + intros e He. cbv beta in He. by rewrite He, parameters_fields. }
  unfold get_studies.
  destruct (files w !! PATH) as [cached|]; [|exact Hrefresh].
  destruct force; simpl; [exact Hrefresh|].
  exists []. rewrite app_nil_r. split; [|constructor].
  by destruct (gzip_json_load cached).
Qed.

(** ** Failures *)

(** X4. There is no retry: when a request raises, the fetch raises the
    same exception and makes no further request. *)
Theorem transport_failure_is_not_retried fuel page_size fields (w : World) session i req e :
  http_log (snd (drive fuel (iterate_download_studies page_size fields) w))
    = http_log w ++ session ->
  session !! i = Some (req, inl e) ->
  fst (drive fuel (iterate_download_studies page_size fields) w) = Raise e /\
  length session = S i.
Proof.
  intros Hlog Hi. by apply (drive_fatal serve fuel page_size fields w session i req (inl e) e).
Qed.

(** X5. A response that is no JSON object, or whose "studies" is null, a
    boolean or a number, makes the fetch raise [TypeError]; nothing is
    requested after it. *)
Theorem ill_typed_response_is_fatal fuel page_size fields (w : World) session i req res :
  http_log (snd (drive fuel (iterate_download_studies page_size fields) w))
    = http_log w ++ session ->
  session !! i = Some (req, inr res) ->
  is_object res = false \/
  (exists o studies,
      res = JObj o /\
      missing_key (bool_decide (i = 0%nat)) o = None /\
      assoc "studies" o = Some studies /\
      py_iter studies = inl TypeError) ->
  fst (drive fuel (iterate_download_studies page_size fields) w) = Raise TypeError /\
  length session = S i.
Proof.
  intros Hlog Hi Hbad.
  apply (drive_fatal serve fuel page_size fields w session i req (inr res) TypeError Hlog Hi).
  destruct Hbad as [Hobj|(o & studies & -> & Hkey & Hst & Hiter)].
  - destruct res; try discriminate Hobj; by destruct (bool_decide (i = 0%nat)).
  - unfold raised_by, studies_error, missing_key, lacks in *. simpl in *.
    rewrite Hst in *. rewrite Hiter.
    destruct (bool_decide (i = 0%nat)); [|done].
    by destruct (assoc "totalCount" o).
Qed.

(** ** What the fetch returns *)

Lemma drive_records_later fuel : forall ps res pending (w w' : World) L session,
  drive fuel (GYieldFrom ps res pending) w = (Ok L, w') ->
  http_log w' = http_log w ++ session ->
  L = pending ++ concat (map (fun e : Exchange => records_of (snd e)) session).
Proof.
  induction fuel as [|fuel IH]; intros ps res pending w w' L session; [done|].
  first_step (GYieldFrom ps res pending) w; simpl.
  - destruct (drive fuel (GYieldFrom ps res pending0) w0) as [[xs|e|] w1] eqn:Hd;
      simpl; intros [= <- <-] Hlog.
    by rewrite (IH _ _ _ _ _ _ _ Hd Hlog).
  - done.
  - intros [= <- <-] Hlog. same_log Hlog. subst session. done.
  - done.
  - done.
  - intros Hd Hlog.
    match type of Hd with drive fuel ?g ?w1 = _ =>
      destruct (drive_session serve fuel g w1) as (session' & Hlog' & _)
    end.
    rewrite Hd in Hlog'. simpl in Hlog'.
    rewrite Hlog, <- app_assoc in Hlog'. apply app_inv_head in Hlog'. subst session.
    assert (http_log w' =
            http_log (mkWorld s' (http_log w ++ [(next_request ps next_token, inr res')])
                              (files w) (write_log w)) ++ session') as Hlog1.
    { rewrite Hlog. simpl. by rewrite <- app_assoc. }
    rewrite (IH _ _ _ _ _ _ _ Hd Hlog1). simpl.
    match goal with
    | H1 : py_getitem res' "studies" = _, H2 : py_iter _ = _ |- _ => rewrite H1, H2
    end.
    reflexivity.
Qed.

(** X13. Whatever the provider is, when the fetch returns, the list is the
    records of the responses received, response after response and each in
    its own order: nothing is dropped, repeated or reordered. *)
Theorem fetch_returns_the_records_received fuel page_size fields (w w' : World) L session :
  drive fuel (iterate_download_studies page_size fields) w = (Ok L, w') ->
  http_log w' = http_log w ++ session ->
  L = concat (map (fun e : Exchange => records_of (snd e)) session).
Proof.
  destruct fuel as [|fuel]; [done|].
  unfold iterate_download_studies.
  first_step (GStart page_size fields) w; simpl; [done|done|].
  intros Hd Hlog.
  match type of Hd with drive fuel ?g ?w1 = _ =>
    destruct (drive_session serve fuel g w1) as (session' & Hlog' & _)
  end.
  rewrite Hd in Hlog'. simpl in Hlog'.
  rewrite Hlog, <- app_assoc in Hlog'. apply app_inv_head in Hlog'. subst session.
  assert (http_log w' =
          http_log (mkWorld s' (http_log w ++ [(first_request ps, inr res)])
                            (files w) (write_log w)) ++ session') as Hlog1.
  { rewrite Hlog. simpl. by rewrite <- app_assoc. }
  rewrite (drive_records_later _ _ _ _ _ _ _ _ Hd Hlog1). simpl.
  match goal with
  | H1 : py_getitem res "studies" = _, H2 : py_iter _ = _ |- _ => rewrite H1, H2
  end.
  reflexivity.
Qed.

(** ** Reading a few records only *)

Lemma pull_pending n : forall ps res pending fuel (w : World),
  (n <= length pending)%nat ->
  (n <= fuel)%nat ->
  pull fuel n (GYieldFrom ps res pending) w = (Ok (take n pending), w).
Proof.
  induction n as [|n IH]; intros ps res pending fuel w Hn Hfuel.
  - by destruct fuel.
  - destruct pending as [|x pending]; [simpl in Hn; lia|].
    destruct fuel as [|fuel]; [lia|].
    simpl in *. rewrite IH by lia. reflexivity.
Qed.

(** X6. The fetch streams: a consumer that asks for n records, with n at
    least 1 and at most the size of the first page, gets the first n
    records of that page and the provider has seen one request only,
    whatever continuation token the page carries. *)
Theorem first_page_needs_one_request page_size fields fuel n (w : World) res s' total page :
  serve (provider w) (first_request (parameters page_size fields)) = (inr res, s') ->
  py_getitem res "totalCount" = inr total ->
  py_getitem res "studies" = inr (JArr page) ->
  (0 < n <= length page)%nat ->
  (n < fuel)%nat ->
  pull fuel n (iterate_download_studies page_size fields) w =
    (Ok (take n page),
     mkWorld s' (http_log w ++ [(first_request (parameters page_size fields), inr res)])
             (files w) (write_log w)).
Proof.
  intros Hserve Htotal Hst Hn Hfuel.
  destruct n as [|n]; [lia|]. destruct fuel as [|fuel]; [lia|].
  unfold iterate_download_studies.
  change (pull (S fuel) (S n) (GStart page_size fields) w)
    with (match gen_next (GStart page_size fields) w with
          | (SYield x g', w') => consume x (pull fuel n g' w')
          | (SContinue g', w') => pull fuel (S n) g' w'
          | (SReturn, w') => (Ok [], w')
          | (SRaise e, w') => (Raise e, w')
          end).
  simpl gen_next. unfold requests_get_json. rewrite Hserve, Htotal, Hst. simpl py_iter.
  cbv iota beta. apply pull_pending; lia.
Qed.

(** ** A provider that never runs out of pages *)

Lemma drive_endless_later Inv :
  Endless serve Inv ->
  forall fuel ps res pending (w : World) next_token,
    Inv (provider w) ->
    py_get res "nextPageToken" = inr next_token ->
    truthy next_token = true ->
    fst (drive fuel (GYieldFrom ps res pending) w) = OutOfFuel.
Proof.
  intros Hend. induction fuel as [|fuel IH]; intros ps res pending w tok Hw Hg Ht; [done|].
  rewrite (drive_S serve). destruct pending as [|x pending]; simpl.
  - rewrite Hg, Ht. unfold requests_get_json.
    destruct (Hend (provider w) (next_request ps tok) Hw)
      as (res' & s' & total & studies & items & tok' & -> & _ & -> & -> & Hg' & Ht' & Hs').
    simpl. by apply IH with tok'.
  - pose proof (IH ps res pending w tok Hw Hg Ht) as Hrest.
    destruct (drive fuel (GYieldFrom ps res pending) w) as [[xs|e|] w1]; simpl in *; done.
Qed.

(** X7. Nothing but a missing token ends the loop: against a provider that
    answers every request with a page and a continuation token, the fetch
    neither returns nor raises, however long it is run; the total count
    the provider reported puts no bound on it. *)
Theorem endless_provider_never_ends Inv page_size fields fuel (w : World) :
  Endless serve Inv ->
  Inv (provider w) ->
  fst (drive fuel (iterate_download_studies page_size fields) w) = OutOfFuel.
Proof.
  intros Hend Hw. destruct fuel as [|fuel]; [done|].
  unfold iterate_download_studies. rewrite (drive_S serve). simpl.
  unfold requests_get_json.
  destruct (Hend (provider w) (first_request (parameters page_size fields)) Hw)
    as (res & s' & total & studies & items & tok & -> & -> & -> & -> & Hg & Ht & Hs').
  simpl. by apply (drive_endless_later Inv Hend) with tok.
Qed.

(** ** The fetch and the files *)

Lemma gen_next_frame g (w : World) f l :
  gen_next g (with_files f l w) =
  (fst (gen_next g w), with_files f l (snd (gen_next g w))).
Proof.
  destruct g as [page_size fields|ps res [|x pending]|]; simpl; try reflexivity.
  - unfold requests_get_json. simpl.
    destruct (serve (provider w) _) as [[e|res] s']; [reflexivity|].
    destruct (py_getitem res "totalCount"); [reflexivity|].
    destruct (py_getitem res "studies") as [|studies]; [reflexivity|].
    by destruct (py_iter studies).
  - destruct (py_get res "nextPageToken") as [|tok]; [reflexivity|].
    destruct (truthy tok); [|reflexivity].
    unfold requests_get_json. simpl.
    destruct (serve (provider w) _) as [[e|res'] s']; [reflexivity|].
    destruct (py_getitem res' "studies") as [|studies]; [reflexivity|].
    by destruct (py_iter studies).
Qed.

(** The fetch reads no file: with other files it does the same. *)
Lemma drive_frame fuel : forall g (w : World) f l,
  drive fuel g (with_files f l w) =
  (fst (drive fuel g w), with_files f l (snd (drive fuel g w))).
Proof.
  induction fuel as [|fuel IH]; intros g w f l; [reflexivity|].
  rewrite !(drive_S serve), gen_next_frame.
  destruct (gen_next g w) as [[x g'|g'| |e] w1]; simpl; try reflexivity.
  - rewrite IH. by destruct (drive fuel g' w1) as [[xs|e|] w2].
  - apply IH.
Qed.

(** X10. A forced refresh makes no use of what is on disk: with any other
    files in place it returns the same, exchanges the same with the
    provider, and, when it returns, leaves the same cache and sample. *)
Theorem forced_refresh_ignores_files fuel (w : World) f l :
  fst (get_studies fuel true (with_files f l w)) = fst (get_studies fuel true w) /\
  http_log (snd (get_studies fuel true (with_files f l w)))
    = http_log (snd (get_studies fuel true w)) /\
  provider (snd (get_studies fuel true (with_files f l w)))
    = provider (snd (get_studies fuel true w)) /\
  (forall rv,
      fst (get_studies fuel true w) = Ok rv ->
      files (snd (get_studies fuel true (with_files f l w))) !! PATH
        = files (snd (get_studies fuel true w)) !! PATH /\
      files (snd (get_studies fuel true (with_files f l w))) !! PATH_SAMPLE
        = files (snd (get_studies fuel true w)) !! PATH_SAMPLE).
Proof.
  rewrite !(get_studies_refresh serve) by (by left).
  unfold refresh. rewrite drive_frame.
  destruct (drive fuel _ w) as [[studies|e|] w1]; simpl; repeat split; try done.
  - by rewrite !lookup_insert_eq.
  - rewrite !(lookup_insert_ne _ PATH PATH_SAMPLE)
      by (intros Hp; by apply PATH_SAMPLE_neq_PATH).
    by rewrite !lookup_insert_eq.
Qed.

(** X9. [get_studies] writes to its two artifacts and to nothing else:
    every other file is as it was, whatever the outcome, and the log of
    writes either is as it was or has grown by the sample and then the
    cache, which happens only when the call returns. *)
Theorem get_studies_writes_its_artifacts_only fuel force (w : World) :
  (forall path,
      path <> PATH -> path <> PATH_SAMPLE ->
      files (snd (get_studies fuel force w)) !! path = files w !! path) /\
  (write_log (snd (get_studies fuel force w)) = write_log w \/
   write_log (snd (get_studies fuel force w)) = write_log w ++ [PATH_SAMPLE; PATH] /\
   exists rv, fst (get_studies fuel force w) = Ok rv).
Proof.
  assert ((forall path,
              path <> PATH -> path <> PATH_SAMPLE ->
              files (snd (refresh fuel w)) !! path = files w !! path) /\
          (write_log (snd (refresh fuel w)) = write_log w \/
           write_log (snd (refresh fuel w)) = write_log w ++ [PATH_SAMPLE; PATH] /\
           exists rv, fst (refresh fuel w) = Ok rv)) as Hrefresh.
  { destruct (drive_session serve fuel
                (iterate_download_studies (Some MAXIMUM_PAGE_SIZE) None) w)
      as (session & _ & Hf & Hwl & _).
    unfold refresh.
    destruct (drive fuel _ w) as [[studies|e|] w1]; simpl in *.
    - split.
      + intros path H1 H2. rewrite !lookup_insert_ne by done. by rewrite Hf.
      + right. rewrite Hwl, <- app_assoc. eauto.
    - split; [intros; by rewrite Hf|by left].
    - split; [intros; by rewrite Hf|by left]. }
  unfold get_studies.
  destruct (files w !! PATH) as [cached|]; [|exact Hrefresh].
  destruct force; simpl; [exact Hrefresh|].
  destruct (gzip_json_load cached); simpl; split; auto.
Qed.

(** The fetch from a paginated provider, with what it leaves of the
    world. *)
Lemma drive_paginated page_size fields pages fuel (w : World) :
  Paginated serve (parameters page_size fields) (provider w) pages ->
  (length (concat pages) + length pages < fuel)%nat ->
  exists w' session,
    drive fuel (iterate_download_studies page_size fields) w = (Ok (concat pages), w') /\
    http_log w' = http_log w ++ session /\
    length session = length pages /\
    files w' = files w /\
    write_log w' = write_log w.
Proof.
  destruct pages as [|page pages]; [done|].
  intros (res & s' & total & Hserve & Htotal & Hst & Hc) Hfuel.
  assert (exists w' session,
             drive fuel (iterate_download_studies page_size fields) w
               = (Ok (concat (page :: pages)), w') /\
             http_log w' = http_log w ++ session /\
             length session = length (page :: pages)) as (w' & session & Hd & Hlog & Hlen).
  { simpl in Hfuel. rewrite length_app in Hfuel.
    destruct fuel as [|fuel]; [lia|].
    unfold iterate_download_studies. rewrite (drive_S serve). simpl.
    unfold requests_get_json. rewrite Hserve, Htotal, Hst. simpl.
    set (ps := parameters page_size fields) in *.
    set (w1 := mkWorld s' _ _ _).
    replace fuel with (length page + (fuel - length page))%nat by lia.
    rewrite (drive_pending serve).
    destruct (drive_continues serve ps s' res pages Hc (fuel - length page)%nat w1
                (first_request ps, inr res))
      as (w' & session & Hd & Hlog & Hlen & _); [done|done|lia|].
    rewrite Hd. exists w', ((first_request ps, inr res) :: session).
    split; [done|]. split; [|simpl; by rewrite Hlen].
    rewrite Hlog. subst w1. simpl. by rewrite <- app_assoc. }
  exists w', session. split; [exact Hd|]. split; [exact Hlog|]. split; [exact Hlen|].
  destruct (drive_session serve fuel (iterate_download_studies page_size fields) w)
    as (_ & _ & Hf & Hwl & _).
  rewrite Hd in Hf, Hwl. done.
Qed.

(** A refresh against a paginated provider, with what it leaves of the
    world. *)
Lemma refresh_paginated fuel pages (w : World) :
  Paginated serve (parameters (Some MAXIMUM_PAGE_SIZE) None) (provider w) pages ->
  (length (concat pages) + length pages < fuel)%nat ->
  exists w' session,
    refresh fuel w = (Ok (JArr (concat pages)), w') /\
    http_log w' = http_log w ++ session /\
    length session = length pages /\
    files w' = <[PATH := GzipJsonText None (JArr (concat pages))]>
                 (<[PATH_SAMPLE := JsonText (Some 2%nat) (JArr (take 5 (concat pages)))]>
                    (files w)) /\
    write_log w' = write_log w ++ [PATH_SAMPLE; PATH].
Proof.
  intros Hpag Hfuel.
  destruct (drive_paginated _ _ _ _ _ Hpag Hfuel)
    as (w1 & session & Hd & Hlog & Hlen & Hf & Hwl).
  unfold refresh. rewrite Hd.
  eexists _, session. split; [reflexivity|]. simpl.
  rewrite Hf, Hwl, <- app_assoc. done.
Qed.

(** X8. A refresh against a provider that serves K pages, with fuel to run
    to the end: K requests are made; the list of all the records, in page
    order, is returned; the sample artifact is written first, with the
    first five of them, and the cache artifact second, with all of them;
    every other file stays. *)
Theorem refresh_stores_all_pages fuel force pages (w : World) :
  force = true \/ files w !! PATH = None ->
  Paginated serve (parameters (Some MAXIMUM_PAGE_SIZE) None) (provider w) pages ->
  (length (concat pages) + length pages < fuel)%nat ->
  exists w' session,
    get_studies fuel force w = (Ok (JArr (concat pages)), w') /\
    http_log w' = http_log w ++ session /\
    length session = length pages /\
    files w' = <[PATH := GzipJsonText None (JArr (concat pages))]>
                 (<[PATH_SAMPLE := JsonText (Some 2%nat) (JArr (take 5 (concat pages)))]>
                    (files w)) /\
    write_log w' = write_log w ++ [PATH_SAMPLE; PATH].
Proof.
  intros Hrefresh Hpag Hfuel.
  rewrite (get_studies_refresh serve fuel force w Hrefresh).
  by apply refresh_paginated.
Qed.

(** X11. A cache artifact that cannot be read is not refetched behind the
    caller's back: with [force] false the call raises the read error and
    changes nothing.  A forced refresh against a provider that serves its
    pages repairs it: it returns the records, and a later call with
    [force] false returns the same list from the cache. *)
Theorem unreadable_cache_needs_force fuel fuel' pages (w : World) cached e :
  files w !! PATH = Some cached ->
  gzip_json_load cached = inl e ->
  Paginated serve (parameters (Some MAXIMUM_PAGE_SIZE) None) (provider w) pages ->
  (length (concat pages) + length pages < fuel)%nat ->
  get_studies fuel' false w = (Raise e, w) /\
  exists w',
    get_studies fuel true w = (Ok (JArr (concat pages)), w') /\
    get_studies fuel' false w' = (Ok (JArr (concat pages)), w').
Proof.
  intros Hc Hload Hpag Hfuel. split.
  - unfold get_studies. rewrite Hc. simpl. by rewrite Hload.
  - destruct (refresh_paginated fuel pages w Hpag Hfuel) as (w' & session & Hg & _ & _ & Hf & _).
    exists w'. split.
    + by rewrite (get_studies_refresh serve fuel true w) by (by left).
    + unfold get_studies. rewrite Hf, lookup_insert_eq. reflexivity.
Qed.

(** ** upload_zenodo, when all goes well *)

(** X14. A call of [upload_zenodo] that has a client, against a provider
    that serves its pages and with fuel to run to the end, raises
    [NotImplementedError] only after the download: the cache artifact then
    holds all the records and the sample artifact the first five. *)
Theorem upload_zenodo_leaves_fresh_artifacts {Client : Type} (default_client : result Client)
    fuel client c pages (w : World) :
  match client with Some c' => inr c' | None => default_client end = inr c ->
  Paginated serve (parameters (Some MAXIMUM_PAGE_SIZE) None) (provider w) pages ->
  (length (concat pages) + length pages < fuel)%nat ->
  exists w',
    upload_zenodo serve default_client fuel client w = (Raise NotImplementedError, w') /\
    length (http_log w') = (length (http_log w) + length pages)%nat /\
    files w' !! PATH = Some (GzipJsonText None (JArr (concat pages))) /\
    files w' !! PATH_SAMPLE = Some (JsonText (Some 2%nat) (JArr (take 5 (concat pages)))).
Proof.
  intros Hc Hpag Hfuel.
  destruct (refresh_paginated fuel pages w Hpag Hfuel)
    as (w' & session & Hg & Hlog & Hlen & Hf & _).
  exists w'. unfold upload_zenodo. rewrite Hc.
  rewrite (get_studies_refresh serve fuel true w) by (by left). rewrite Hg.
  split; [reflexivity|]. split; [by rewrite Hlog, length_app, Hlen|].
  rewrite Hf. split; [by rewrite lookup_insert_eq|].
  rewrite lookup_insert_ne by (intros Hp; by apply PATH_SAMPLE_neq_PATH).
  by rewrite lookup_insert_eq.
Qed.

End MoreFacts.

(** ** The further scenarios, run *)

Lemma transport_failure_is_not_retried_witness :
  fst (drive (sim_serve 12) 20 (iterate_download_studies None None) (failing_scenario ∅))
    = Raise RequestException /\
  length [(first_request (parameters None None),
           inr (page_response 12 (first_request (parameters None None)) page1) : result json);
          (next_request (parameters None None) (JStr "tok1"), inl RequestException)]
    = 2%nat.
Proof.
  apply (transport_failure_is_not_retried (sim_serve 12) 20 None None (failing_scenario ∅)
           _ 1 (next_request (parameters None None) (JStr "tok1")) RequestException).
  - vm_compute. reflexivity.
  - reflexivity.
Defined.

(** A JSON array for a response, and a number for "studies". *)
Lemma ill_typed_response_is_fatal_witness :
  (fst (drive scripted_serve 20 (iterate_download_studies None None) array_scenario)
     = Raise TypeError /\
   length [(first_request (parameters None None),
            inr (JArr [record "N01"]) : result json)] = 1%nat) /\
  (fst (drive scripted_serve 20 (iterate_download_studies None None) number_scenario)
     = Raise TypeError /\
   length [(first_request (parameters None None),
            inr (JObj [("totalCount", JNum 1); ("studies", JNum 7)]) : result json)]
     = 1%nat).
Proof.
  split.
  - apply (ill_typed_response_is_fatal scripted_serve 20 None None array_scenario
             _ 0 (first_request (parameters None None)) (JArr [record "N01"])).
    + vm_compute. reflexivity.
    + reflexivity.
    + left. reflexivity.
  - apply (ill_typed_response_is_fatal scripted_serve 20 None None number_scenario
             _ 0 (first_request (parameters None None))
             (JObj [("totalCount", JNum 1); ("studies", JNum 7)])).
    + vm_compute. reflexivity.
    + reflexivity.
    + right. exists [("totalCount", JNum 1); ("studies", JNum 7)], (JNum 7).
      repeat split; reflexivity.
Defined.

(** Three records of the ten of the first page, for one request. *)
Lemma first_page_needs_one_request_witness :
  pull (sim_serve 12) 10 3 (iterate_download_studies None None) scenario =
    (Ok (map record ["N01"; "N02"; "N03"]),
     mkWorld ([page2], Some "tok1")
             (http_log scenario
                ++ [(first_request (parameters None None),
                     inr (page_response 12 (first_request (parameters None None)) page1))])
             (files scenario) (write_log scenario)).
Proof.
  apply (first_page_needs_one_request (sim_serve 12) None None 10 3 scenario
           (page_response 12 (first_request (parameters None None)) page1)
           ([page2], Some "tok1") (JNum 12) (page_records page1)).
  - vm_compute. reflexivity.
  - reflexivity.
  - reflexivity.
  - simpl. lia.
  - lia.
Defined.

Lemma endless_serve_is_endless : Endless endless_serve (fun _ => True).
Proof.
  intros s req _.
  exists (JObj [("totalCount", JNum 0); ("studies", JArr []); ("nextPageToken", JStr "more")]),
         tt, (JNum 0), (JArr []), [], (JStr "more").
  repeat split; reflexivity.
Defined.

Lemma endless_provider_never_ends_witness :
  fst (drive endless_serve 50 (iterate_download_studies None None) endless_scenario)
    = OutOfFuel.
Proof.
  apply (endless_provider_never_ends endless_serve (fun _ => True) None None 50
           endless_scenario endless_serve_is_endless I).
Defined.

(** The end-to-end scenario, forced over an old cache. *)
Lemma refresh_stores_all_pages_witness :
  exists w' session,
    get_studies (sim_serve 12) 20 true cached_scenario
      = (Ok (JArr (concat (map page_records [page1; page2]))), w') /\
    http_log w' = http_log cached_scenario ++ session /\
    length session = length (map page_records [page1; page2]) /\
    files w' = <[PATH := GzipJsonText None (JArr (concat (map page_records [page1; page2])))]>
                 (<[PATH_SAMPLE := JsonText (Some 2%nat)
                                     (JArr (take 5 (concat (map page_records [page1; page2]))))]>
                    (files cached_scenario)) /\
    write_log w' = write_log cached_scenario ++ [PATH_SAMPLE; PATH].
Proof.
  apply (refresh_stores_all_pages (sim_serve 12) 20 true
           (map page_records [page1; page2]) cached_scenario).
  - left. reflexivity.
  - apply (sim_paginated 12 (Some MAXIMUM_PAGE_SIZE) None [page1; page2] old_cache
             scenario_tokens_ok).
  - simpl. lia.
Defined.

Lemma unreadable_cache_needs_force_witness :
  get_studies (sim_serve 12) 7 false corrupt_scenario = (Raise BadGzipFile, corrupt_scenario) /\
  exists w',
    get_studies (sim_serve 12) 20 true corrupt_scenario
      = (Ok (JArr (concat (map page_records [page1; page2]))), w') /\
    get_studies (sim_serve 12) 7 false w'
      = (Ok (JArr (concat (map page_records [page1; page2]))), w').
Proof.
  apply (unreadable_cache_needs_force (sim_serve 12) 20 7
           (map page_records [page1; page2]) corrupt_scenario
           (Other "not a gzip file") BadGzipFile).
  - reflexivity.
  - reflexivity.
  - apply (sim_paginated 12 (Some MAXIMUM_PAGE_SIZE) None [page1; page2] corrupt_cache
             scenario_tokens_ok).
  - simpl. lia.
Defined.

Lemma fetch_returns_the_records_received_witness :
  concat (map page_records [page1; page2]) =
  concat (map (fun e : Exchange => records_of (snd e))
              (http_log (snd (drive (sim_serve 12) 20
                                (iterate_download_studies None None) scenario)))).
Proof.
  apply (fetch_returns_the_records_received (sim_serve 12) 20 None None scenario
           (snd (drive (sim_serve 12) 20 (iterate_download_studies None None) scenario))).
  - vm_compute. reflexivity.
  - reflexivity.
Defined.

Lemma upload_zenodo_leaves_fresh_artifacts_witness :
  exists w',
    upload_zenodo (sim_serve 12) (inr tt) 20 None cached_scenario
      = (Raise NotImplementedError, w') /\
    length (http_log w')
      = (length (http_log cached_scenario) + length (map page_records [page1; page2]))%nat /\
    files w' !! PATH
      = Some (GzipJsonText None (JArr (concat (map page_records [page1; page2])))) /\
    files w' !! PATH_SAMPLE
      = Some (JsonText (Some 2%nat)
                (JArr (take 5 (concat (map page_records [page1; page2]))))).
Proof.
  apply (upload_zenodo_leaves_fresh_artifacts (sim_serve 12) (inr tt) 20 None tt
           (map page_records [page1; page2]) cached_scenario).
  - reflexivity.
  - apply (sim_paginated 12 (Some MAXIMUM_PAGE_SIZE) None [page1; page2] old_cache
             scenario_tokens_ok).
  - simpl. lia.
Defined.
